(** * KvantoBot Web API: the OAuth callback relay of [server.js]

    A shallow embedding of the two Express route handlers of [server.js]
    ([GET /api/health] and [POST /api/auth/discord/callback]) and of the two
    helpers [exchangeCodeForToken] and [fetchDiscordUserInfo], followed by
    the properties of the handlers.

    What is the repository's code is translated line by line.  What the
    JavaScript runtime supplies (property lookup, truthiness, string
    conversion, [URLSearchParams], [fetch], [Date]) is modelled after
    ECMAScript, the URL standard and the Fetch standard, for the values a
    JSON body can hold. *)

From Stdlib Require Import String Ascii List ZArith Lia Bool PrimFloat.
Import ListNotations.
Local Open Scope string_scope.
#[local] Set Warnings "-register-all".

(** ** JavaScript values *)

Module Js.

(** The values the handlers see: what [JSON.parse] builds, and [undefined]
    (the value of a property that is not there).  Numbers are IEEE doubles.
    An object keeps its properties in insertion order; [JSON.parse] never
    builds one with the same key twice. *)
Inductive jsval : Type :=
  | JUndefined
  | JNull
  | JBool (b : bool)
  | JNum (x : float)
  | JStr (s : string)
  | JArr (items : list jsval)
  | JObj (fields : list (string * jsval)).

(** A thrown [Error] object: its constructor's name and its [message]. *)
Record JsError : Type := mkError { err_name : string; err_message : string }.

Definition TypeError (msg : string) : JsError := mkError "TypeError" msg.
Definition Error (msg : string) : JsError := mkError "Error" msg.

(** The completion of an expression: a value, or a thrown error. *)
Inductive Result (A : Type) : Type :=
  | Ok (a : A)
  | Throw (e : JsError).
Arguments Ok {A} a.
Arguments Throw {A} e.

Definition nullish (v : jsval) : bool :=
  match v with
  | JUndefined | JNull => true
  | _ => false
  end.

Definition is_string (v : jsval) : bool :=
  match v with
  | JStr _ => true
  | _ => false
  end.

(** ToBoolean: [undefined], [null], [false], [+0], [-0], [NaN] and the empty
    string are falsy, everything else (every object and array) is truthy. *)
Definition truthy (v : jsval) : bool :=
  match v with
  | JUndefined | JNull => false
  | JBool b => b
  | JNum x => negb (PrimFloat.is_zero x || PrimFloat.is_nan x)
  | JStr s => negb (s =? "")
  | JArr _ | JObj _ => true
  end.

Fixpoint lookup (k : string) (fields : list (string * jsval)) : option jsval :=
  match fields with
  | [] => None
  | (k', v) :: rest => if k =? k' then Some v else lookup k rest
  end.

Definition own (k : string) (v : jsval) : jsval :=
  match v with
  | JObj fields =>
      match lookup k fields with
      | Some x => x
      | None => JUndefined
      end
  | _ => JUndefined
  end.

(** [v.k], for the property names [server.js] reads from parsed JSON
    ([access_token], [error_description], [error], [message], [username]):
    none of them is on a built-in prototype, so the value is the own
    property or [undefined]; reading from [undefined] or [null] throws
    (the message is V8's, the engine of Node.js). *)
Definition get (v : jsval) (k : string) : Result jsval :=
  match v with
  | JUndefined =>
      Throw (TypeError ("Cannot read properties of undefined (reading '" ++ k ++ "')"))
  | JNull =>
      Throw (TypeError ("Cannot read properties of null (reading '" ++ k ++ "')"))
  | _ => Ok (own k v)
  end.

(** [const { k } = v]: as [v.k], with the message of a destructuring. *)
Definition destructure (v : jsval) (k src : string) : Result jsval :=
  match v with
  | JUndefined =>
      Throw (TypeError ("Cannot destructure property '" ++ k ++ "' of '" ++ src
                        ++ "' as it is undefined."))
  | JNull =>
      Throw (TypeError ("Cannot destructure property '" ++ k ++ "' of '" ++ src
                        ++ "' as it is null."))
  | _ => Ok (own k v)
  end.

Section ToString.

(** Number::toString, the shortest decimal that reads back as the double:
    left to the engine. *)
Variable number_to_string : float -> string.

(** ToString, as a template literal applies it.  An array is the join of
    its elements with [","], [undefined] and [null] elements giving the
    empty string.  An object goes through OrdinaryToPrimitive: an own
    [toString] property parsed from JSON is not callable and hides
    [Object.prototype.toString], and [valueOf] returns no primitive, so the
    conversion throws (the message is V8's); otherwise it is
    ["[object Object]"]. *)
Fixpoint to_string (v : jsval) : Result string :=
  match v with
  | JUndefined => Ok "undefined"
  | JNull => Ok "null"
  | JBool true => Ok "true"
  | JBool false => Ok "false"
  | JNum x => Ok (number_to_string x)
  | JStr s => Ok s
  | JArr items =>
      (fix join (l : list jsval) : Result string :=
         match l with
         | [] => Ok ""
         | x :: rest =>
             match (if nullish x then Ok "" else to_string x) with
             | Throw e => Throw e
             | Ok sx =>
                 match rest with
                 | [] => Ok sx
                 | _ :: _ =>
                     match join rest with
                     | Throw e => Throw e
                     | Ok sr => Ok (sx ++ "," ++ sr)
                     end
                 end
             end
         end) items
  | JObj fields =>
      match lookup "toString" fields with
      | Some _ => Throw (TypeError "Cannot convert object to primitive value")
      | None => Ok "[object Object]"
      end
  end.

End ToString.

End Js.

(** ** [URLSearchParams]: the application/x-www-form-urlencoded serializer *)

Module Form.

(** Strings are byte strings (the UTF-8 encoding the serializer works on). *)

(** The bytes the serializer leaves as they are: ASCII letters and digits,
    ["*"], ["-"], ["."] and ["_"]. *)
Definition unreserved (c : ascii) : bool :=
  let n := nat_of_ascii c in
  (((48 <=? n) && (n <=? 57)) || ((65 <=? n) && (n <=? 90))
   || ((97 <=? n) && (n <=? 122))
   || (n =? 42) || (n =? 45) || (n =? 46) || (n =? 95))%nat.

Definition hex_digit (n : nat) : ascii :=
  if (n <? 10)%nat then ascii_of_nat (48 + n) else ascii_of_nat (55 + n).

Definition encode_byte (c : ascii) : string :=
  if Ascii.eqb c " " then "+"
  else if unreserved c then String c ""
  else String "%" (String (hex_digit (nat_of_ascii c / 16))
                     (String (hex_digit (nat_of_ascii c mod 16)) "")).

Fixpoint urlencode (s : string) : string :=
  match s with
  | "" => ""
  | String c rest => encode_byte c ++ urlencode rest
  end.

(** [params.toString()]: [name=value] tuples joined by ["&"]. *)
Fixpoint serialize (params : list (string * string)) : string :=
  match params with
  | [] => ""
  | (k, v) :: rest =>
      urlencode k ++ "=" ++ urlencode v
      ++ match rest with
         | [] => ""
         | _ :: _ => "&" ++ serialize rest
         end
  end.

(** The receiving side: the application/x-www-form-urlencoded parser of the
    URL standard, used to say which fields a serialized body holds. *)

Definition hex_value (c : ascii) : option nat :=
  let n := nat_of_ascii c in
  if ((48 <=? n) && (n <=? 57))%nat then Some (n - 48)
  else if ((65 <=? n) && (n <=? 70))%nat then Some (n - 55)
  else if ((97 <=? n) && (n <=? 102))%nat then Some (n - 87)
  else None.

Fixpoint percent_decode (s : string) : string :=
  match s with
  | "" => ""
  | String c rest =>
      if Ascii.eqb c "%" then
        match rest with
        | String h (String l rest') =>
            match hex_value h, hex_value l with
            | Some a, Some b => String (ascii_of_nat (16 * a + b)) (percent_decode rest')
            | _, _ => String c (percent_decode rest)
            end
        | _ => String c (percent_decode rest)
        end
      else String c (percent_decode rest)
  end.

Fixpoint plus_to_space (s : string) : string :=
  match s with
  | "" => ""
  | String c rest => String (if Ascii.eqb c "+" then " "%char else c) (plus_to_space rest)
  end.

(** [split sep s]: the pieces of [s] between occurrences of [sep]. *)
Fixpoint split (sep : ascii) (s : string) : list string :=
  match s with
  | "" => [""]
  | String c rest =>
      if Ascii.eqb c sep then "" :: split sep rest
      else match split sep rest with
           | [] => [String c ""]
           | piece :: pieces => String c piece :: pieces
           end
  end.

(** A tuple is cut at its first ["="]; without one the value is empty. *)
Fixpoint cut (sep : ascii) (s : string) : string * string :=
  match s with
  | "" => ("", "")
  | String c rest =>
      if Ascii.eqb c sep then ("", rest)
      else let (a, b) := cut sep rest in (String c a, b)
  end.

Definition parse_tuple (piece : string) : string * string :=
  let (k, v) := cut "=" piece in
  (percent_decode (plus_to_space k), percent_decode (plus_to_space v)).

Definition parse (body : string) : list (string * string) :=
  map parse_tuple (filter (fun piece => negb (piece =? "")) (split "&" body)).

(** Does the byte [c] occur in [s]? *)
Fixpoint occurs (c : ascii) (s : string) : bool :=
  match s with
  | "" => false
  | String c' rest => Ascii.eqb c c' || occurs c rest
  end.

(** One [name=value] tuple of a serialization. *)
Definition tuple (kv : string * string) : string :=
  urlencode (fst kv) ++ "=" ++ urlencode (snd kv).

End Form.

(** ** [Date]: time values and [toISOString] (ECMAScript, Date objects) *)

Module JsDate.
Local Open Scope Z_scope.

(** A time value is a number of milliseconds since 1970-01-01T00:00:00Z, at
    most 8.64e15 in absolute value. *)
Definition maxTime : Z := 8640000000000000.
Definition valid_time (t : Z) : Prop := - maxTime <= t <= maxTime.

Definition msPerDay : Z := 86400000.
Definition msPerHour : Z := 3600000.
Definition msPerMinute : Z := 60000.
Definition msPerSecond : Z := 1000.

Definition Day (t : Z) : Z := t / msPerDay.
Definition TimeWithinDay (t : Z) : Z := t mod msPerDay.

Definition DaysInYear (y : Z) : Z :=
  if negb (y mod 4 =? 0) then 365
  else if negb (y mod 100 =? 0) then 366
  else if negb (y mod 400 =? 0) then 365
  else 366.

Definition DayFromYear (y : Z) : Z :=
  365 * (y - 1970) + (y - 1969) / 4 - (y - 1901) / 100 + (y - 1601) / 400.

(** The largest [y] whose first day is not after [Day t]: the Gregorian mean
    year gives it up to one, and the first days of the neighbours decide. *)
Definition YearFromTime (t : Z) : Z :=
  let y := 1970 + (400 * Day t) / 146097 in
  if DayFromYear (y + 1) <=? Day t then y + 1
  else if DayFromYear y <=? Day t then y
  else y - 1.

Definition InLeapYear (t : Z) : Z :=
  if DaysInYear (YearFromTime t) =? 366 then 1 else 0.

Definition DayWithinYear (t : Z) : Z := Day t - DayFromYear (YearFromTime t).

Definition MonthFromTime (t : Z) : Z :=
  let d := DayWithinYear t in
  let leap := InLeapYear t in
  if d <? 31 then 0
  else if d <? 59 + leap then 1
  else if d <? 90 + leap then 2
  else if d <? 120 + leap then 3
  else if d <? 151 + leap then 4
  else if d <? 181 + leap then 5
  else if d <? 212 + leap then 6
  else if d <? 243 + leap then 7
  else if d <? 273 + leap then 8
  else if d <? 304 + leap then 9
  else if d <? 334 + leap then 10
  else 11.

Definition DateFromTime (t : Z) : Z :=
  let d := DayWithinYear t in
  let leap := InLeapYear t in
  match MonthFromTime t with
  | 0 => d + 1
  | 1 => d - 30
  | 2 => d - 58 - leap
  | 3 => d - 89 - leap
  | 4 => d - 119 - leap
  | 5 => d - 150 - leap
  | 6 => d - 180 - leap
  | 7 => d - 211 - leap
  | 8 => d - 242 - leap
  | 9 => d - 272 - leap
  | 10 => d - 303 - leap
  | _ => d - 333 - leap
  end.

Definition HourFromTime (t : Z) : Z := (t / msPerHour) mod 24.
Definition MinFromTime (t : Z) : Z := (t / msPerMinute) mod 60.
Definition SecFromTime (t : Z) : Z := (t / msPerSecond) mod 60.
Definition msFromTime (t : Z) : Z := t mod msPerSecond.

Definition digit (n : Z) : ascii := ascii_of_nat (48 + Z.to_nat (n mod 10)).

Definition pad2 (n : Z) (k : string) : string :=
  String (digit (n / 10)) (String (digit n) k).
Definition pad3 (n : Z) (k : string) : string :=
  String (digit (n / 100)) (pad2 n k).
Definition pad4 (n : Z) (k : string) : string :=
  String (digit (n / 1000)) (pad3 n k).
Definition pad6 (n : Z) (k : string) : string :=
  String (digit (n / 100000)) (String (digit (n / 10000)) (pad4 n k)).

(** Years 0 to 9999 are written with four digits, the others with a sign
    and six digits. *)
Definition year_field (y : Z) (k : string) : string :=
  if (0 <=? y) && (y <=? 9999) then pad4 y k
  else String (if y <? 0 then "-"%char else "+"%char) (pad6 (Z.abs y) k).

(** [YYYY-MM-DDTHH:mm:ss.sssZ], in UTC. *)
Definition toISOString (t : Z) : string :=
  year_field (YearFromTime t)
    (String "-" (pad2 (MonthFromTime t + 1)
    (String "-" (pad2 (DateFromTime t)
    (String "T" (pad2 (HourFromTime t)
    (String ":" (pad2 (MinFromTime t)
    (String ":" (pad2 (SecFromTime t)
    (String "." (pad3 (msFromTime t) "Z")))))))))))).

(** The reader's side: is a string an ISO 8601 calendar date and time of
    day in UTC, in the extended format, with a fraction of three digits? *)

Definition digit_value (c : ascii) : option Z :=
  let n := Z.of_nat (nat_of_ascii c) in
  if (48 <=? n) && (n <=? 57) then Some (n - 48) else None.

(** Reads [n] digits in front of [s]: their value and the rest. *)
Fixpoint read_digits (n : nat) (acc : Z) (s : string) : option (Z * string) :=
  match n with
  | O => Some (acc, s)
  | S n' =>
      match s with
      | String c rest =>
          match digit_value c with
          | Some d => read_digits n' (10 * acc + d) rest
          | None => None
          end
      | "" => None
      end
  end.

Definition expect (c : ascii) (s : string) : option string :=
  match s with
  | String c' rest => if Ascii.eqb c c' then Some rest else None
  | "" => None
  end.

Definition read_year (s : string) : option (Z * string) :=
  match s with
  | String c rest =>
      if Ascii.eqb c "+" then read_digits 6 0 rest
      else if Ascii.eqb c "-" then
        match read_digits 6 0 rest with
        | Some (y, rest') => if y =? 0 then None else Some (- y, rest')
        | None => None
        end
      else read_digits 4 0 s
  | "" => None
  end.

Definition days_in_month (y m : Z) : Z :=
  match m with
  | 2 => if DaysInYear y =? 366 then 29 else 28
  | 4 | 6 | 9 | 11 => 30
  | _ => 31
  end.

Definition is_iso8601 (s : string) : bool :=
  match read_year s with
  | None => false
  | Some (y, s1) =>
  match expect "-" s1 with None => false | Some s2 =>
  match read_digits 2 0 s2 with None => false | Some (mo, s3) =>
  match expect "-" s3 with None => false | Some s4 =>
  match read_digits 2 0 s4 with None => false | Some (d, s5) =>
  match expect "T" s5 with None => false | Some s6 =>
  match read_digits 2 0 s6 with None => false | Some (h, s7) =>
  match expect ":" s7 with None => false | Some s8 =>
  match read_digits 2 0 s8 with None => false | Some (mi, s9) =>
  match expect ":" s9 with None => false | Some s10 =>
  match read_digits 2 0 s10 with None => false | Some (sec, s11) =>
  match expect "." s11 with None => false | Some s12 =>
  match read_digits 3 0 s12 with None => false | Some (_, s13) =>
    (1 <=? mo) && (mo <=? 12) && (1 <=? d) && (d <=? days_in_month y mo)
    && (h <=? 23) && (mi <=? 59) && (sec <=? 59)
    && (s13 =? "Z")%string
  end end end end end end end end end end end end
  end.

End JsDate.

(** ** The server: runtime, effects and the handlers of [server.js] *)

Module Server.
Import Js.

(** *** What the outside supplies *)

(** The variables of [process.env] the handlers read; [None] is an unset
    variable, which reads as [undefined]. *)
Record Env : Type := mkEnv {
  DISCORD_CLIENT_ID : option string;
  DISCORD_CLIENT_SECRET : option string;
  DISCORD_REDIRECT_URI : option string
}.

(** The arguments of a [fetch] call. *)
Record FetchInit : Type := mkFetch {
  fetch_url : string;
  fetch_method : string;
  fetch_headers : list (string * string);
  fetch_body : option string
}.

(** A [Response]: its status, and what [response.json()] settles to (the
    parsed body, or the rejection when the body cannot be read as JSON). *)
Record FetchResponse : Type := mkResponse {
  resp_status : nat;
  resp_json : Result jsval
}.

(** [fetch] rejects (no connection, a malformed header) or resolves to a
    response, whatever its status. *)
Inductive FetchOutcome : Type :=
  | Rejected (e : JsError)
  | Responded (r : FetchResponse).

(** The engine, the configuration, the provider and the clock. *)
Record Runtime : Type := mkRuntime {
  number_to_string : float -> string;
  process_env : Env;
  network : FetchInit -> FetchOutcome;
  clock : Z
}.

(** *** What a handler does to the outside *)

Inductive LogArg : Type :=
  | LVal (v : jsval)
  | LErr (e : JsError).

Inductive Event : Type :=
  | EFetch (rq : FetchInit)
  | ELog (args : list LogArg)
  | EError (args : list LogArg).

(** The outbound calls of a trace, in order. *)
Definition outbound (tr : list Event) : list FetchInit :=
  flat_map (fun ev => match ev with EFetch rq => [rq] | _ => [] end) tr.

(** A computation reads the runtime, appends to the trace of events and
    returns or throws. *)
Definition M (A : Type) : Type := Runtime -> list Event -> Result A * list Event.

Definition ret {A} (a : A) : M A := fun _ tr => (Ok a, tr).

Definition bind {A B} (m : M A) (k : A -> M B) : M B :=
  fun rt tr =>
    match m rt tr with
    | (Ok a, tr') => k a rt tr'
    | (Throw e, tr') => (Throw e, tr')
    end.

Definition throw {A} (e : JsError) : M A := fun _ tr => (Throw e, tr).

(** [try { m } catch (error) { h error }] *)
Definition try_catch {A} (m : M A) (h : JsError -> M A) : M A :=
  fun rt tr =>
    match m rt tr with
    | (Ok a, tr') => (Ok a, tr')
    | (Throw e, tr') => h e rt tr'
    end.

Definition lift {A} (r : Result A) : M A := fun _ tr => (r, tr).

Definition ask : M Runtime := fun rt tr => (Ok rt, tr).

Definition emit (ev : Event) : M unit := fun _ tr => (Ok tt, (tr ++ [ev])%list).

Declare Scope js_scope.
Delimit Scope js_scope with js.
Notation "x <- m ;; k" := (bind m (fun x => k))
  (at level 61, m at next level, right associativity) : js_scope.
Notation "m ;; k" := (bind m (fun _ => k))
  (at level 61, right associativity) : js_scope.
Local Open Scope js_scope.

Definition console_log (args : list LogArg) : M unit := emit (ELog args).
Definition console_error (args : list LogArg) : M unit := emit (EError args).

Definition L (s : string) : LogArg := LVal (JStr s).

(** [fetch(url, init)]: the call is recorded, the provider decides. *)
Definition fetch (rq : FetchInit) : M FetchResponse :=
  emit (EFetch rq) ;;
  rt <- ask ;;
  match network rt rq with
  | Rejected e => throw e
  | Responded r => ret r
  end.

(** [response.ok]: a status from 200 to 299. *)
Definition response_ok (r : FetchResponse) : bool :=
  ((200 <=? resp_status r) && (resp_status r <=? 299))%nat.

(** Template literals and string conversions use the engine's ToString. *)
Definition ToString (v : jsval) : M string :=
  rt <- ask ;; lift (to_string (number_to_string rt) v).

(** A variable of [process.env] put in a [URLSearchParams] record. *)
Definition env_string (o : option string) : string :=
  match o with
  | Some s => s
  | None => "undefined"
  end.

(** [code.substring(0, 10)]: strings have the method; on any other value
    parsed from JSON the property is [undefined] or not callable, and the
    call throws.  (The prefix only goes to the log; it is cut here in bytes,
    where JavaScript cuts in UTF-16 code units.) *)
Definition substring_0_10 (code : jsval) : Result string :=
  match code with
  | JStr s => Ok (substring 0 10 s)
  | _ =>
      match get code "substring" with
      | Throw e => Throw e
      | Ok _ => Throw (TypeError "code.substring is not a function")
      end
  end.

(** *** The helpers *)

Definition token_url : string := "https://discord.com/api/oauth2/token".
Definition profile_url : string := "https://discord.com/api/v10/users/@me".

(** [new URLSearchParams({ client_id: ..., ... })]: the five entries of the
    object literal, in its order, each value converted to a string. *)
Definition tokenData (env : Env) (code : string) : list (string * string) :=
  [ ("client_id", env_string (DISCORD_CLIENT_ID env));
    ("client_secret", env_string (DISCORD_CLIENT_SECRET env));
    ("grant_type", "authorization_code");
    ("code", code);
    ("redirect_uri", env_string (DISCORD_REDIRECT_URI env)) ].

(** The two arguments of the [fetch] of [exchangeCodeForToken]. *)
Definition token_request (env : Env) (code : string) : FetchInit :=
  {| fetch_url := token_url;
     fetch_method := "POST";
     fetch_headers := [("Content-Type", "application/x-www-form-urlencoded")];
     fetch_body := Some (Form.serialize (tokenData env code)) |}.

(** The two arguments of the [fetch] of [fetchDiscordUserInfo]; a [fetch]
    without a method is a GET. *)
Definition profile_request (accessToken : string) : FetchInit :=
  {| fetch_url := profile_url;
     fetch_method := "GET";
     fetch_headers := [("Authorization", "Bearer " ++ accessToken)];
     fetch_body := None |}.

(** [async function exchangeCodeForToken(code)] *)
Definition exchangeCodeForToken (code : jsval) : M jsval :=
  rt <- ask ;;
  code_field <- ToString code ;;
  console_log [L "Exchanging code with Discord..."] ;;
  response <- fetch (token_request (process_env rt) code_field) ;;
  result <- lift (resp_json response) ;;
  if negb (response_ok response) then
    console_error [L "Discord token exchange failed:"; LVal result] ;;
    error_description <- lift (get result "error_description") ;;
    detail <- (if truthy error_description then ret error_description
               else lift (get result "error")) ;;
    text <- ToString detail ;;
    throw (Error ("Token exchange failed: " ++ text))
  else
    ret result.

(** [async function fetchDiscordUserInfo(accessToken)] *)
Definition fetchDiscordUserInfo (accessToken : jsval) : M jsval :=
  console_log [L "Fetching user info from Discord..."] ;;
  bearer <- ToString accessToken ;;
  response <- fetch (profile_request bearer) ;;
  result <- lift (resp_json response) ;;
  if negb (response_ok response) then
    console_error [L "Failed to fetch user info:"; LVal result] ;;
    message <- lift (get result "message") ;;
    text <- ToString message ;;
    throw (Error ("Failed to fetch user info: " ++ text))
  else
    ret result.

(** *** The routes *)

(** What a handler sends: [res.status(s).json(b)]; [res.json(b)] alone
    sends status 200.  The body is the object given to [res.json]. *)
Record Reply : Type := mkReply {
  status : nat;
  body : jsval
}.

(** [app.get('/api/health', ...)] *)
Definition health : M Reply :=
  rt <- ask ;;
  ret {| status := 200;
         body := JObj [ ("status", JStr "ok");
                        ("service", JStr "KvantoBot Web API");
                        ("timestamp", JStr (JsDate.toISOString (clock rt))) ] |}.

(** [app.post('/api/auth/discord/callback', ...)], on the parsed body of the
    request. *)
Definition callback (req_body : jsval) : M Reply :=
  try_catch
    (code <- lift (destructure req_body "code" "req.body") ;;
     if negb (truthy code) then
       ret {| status := 400;
              body := JObj [("error", JStr "Authorization code is required")] |}
     else
       prefix <- lift (substring_0_10 code) ;;
       console_log [L "Received OAuth callback with code:"; L (prefix ++ "...")] ;;
       tokenResponse <- exchangeCodeForToken code ;;
       access_token <- lift (get tokenResponse "access_token") ;;
       if negb (truthy access_token) then
         console_error [L "Failed to get access token:"; LVal tokenResponse] ;;
         ret {| status := 400;
                body := JObj [("error", JStr "Failed to get access token")] |}
       else
         console_log [L "Successfully exchanged code for token"] ;;
         access_token <- lift (get tokenResponse "access_token") ;;
         userInfo <- fetchDiscordUserInfo access_token ;;
         username <- lift (get userInfo "username") ;;
         console_log [L "Fetched user info for:"; LVal username] ;;
         access_token <- lift (get tokenResponse "access_token") ;;
         ret {| status := 200;
                body := JObj [("access_token", access_token); ("user", userInfo)] |})
    (fun error =>
       console_error [L "OAuth callback error:"; LErr error] ;;
       ret {| status := 500;
              body := JObj [ ("error", JStr "Internal server error");
                             ("details", JStr (err_message error)) ] |}).

(** A run of a handler from an empty trace. *)
Definition run {A} (m : M A) (rt : Runtime) : Result A * list Event := m rt [].

(** *** Observations on a run *)

(** The outbound calls of a trace that went to [url]. *)
Definition calls_to (url : string) (tr : list Event) : list FetchInit :=
  filter (fun rq => fetch_url rq =? url) (outbound tr).

(** The access token a token-exchange call yields: the [access_token] of the
    parsed body of a response with a success status, when it is truthy. *)
Definition token_obtained (o : FetchOutcome) : option jsval :=
  match o with
  | Rejected _ => None
  | Responded r =>
      match resp_json r with
      | Throw _ => None
      | Ok result =>
          if response_ok r && truthy (own "access_token" result)
          then Some (own "access_token" result)
          else None
      end
  end.

(** [result.error_description || result.error] *)
Definition provider_error (result : jsval) : jsval :=
  if truthy (own "error_description" result) then own "error_description" result
  else own "error" result.

Definition has_field (k : string) (v : jsval) : bool :=
  match v with
  | JObj fields =>
      match lookup k fields with
      | Some _ => true
      | None => false
      end
  | _ => false
  end.

(** The shape of an error body: [{error}] or [{error, details}], strings. *)
Definition error_shape (v : jsval) : Prop :=
  exists e, v = JObj [("error", JStr e)]
            \/ exists d, v = JObj [("error", JStr e); ("details", JStr d)].

(** Does [needle] occur in [s]? *)
Fixpoint contains (needle s : string) : bool :=
  prefix needle s
  || match s with
     | "" => false
     | String _ rest => contains needle rest
     end.

(** Does some string inside the value [v] hold the text [needle]? *)
Fixpoint mentions (needle : string) (v : jsval) : bool :=
  match v with
  | JStr s => contains needle s
  | JArr items => existsb (mentions needle) items
  | JObj fields => existsb (fun kv => mentions needle (snd kv)) fields
  | _ => false
  end.

End Server.

(** ** Scenarios: a provider that answers by endpoint *)

Module Scenario.
Import Js Server.

Definition json (st : nat) (v : jsval) : FetchOutcome :=
  Responded {| resp_status := st; resp_json := Ok v |}.

Definition provider (token profile : FetchOutcome) (rq : FetchInit) : FetchOutcome :=
  if fetch_url rq =? token_url then token else profile.

Definition env : Env :=
  {| DISCORD_CLIENT_ID := Some "1234567890";
     DISCORD_CLIENT_SECRET := Some "s3cr3t";
     DISCORD_REDIRECT_URI := Some "http://localhost:4200/auth/callback" |}.

(** No scenario converts a number to a string; the clock reads
    2026-11-01T17:54:56.789Z. *)
Definition runtime (token profile : FetchOutcome) : Runtime :=
  {| number_to_string := fun _ => "";
     process_env := env;
     network := provider token profile;
     clock := 1793555696789 |}.

Definition unreachable : FetchOutcome := Rejected (TypeError "fetch failed").

Definition with_code (code : jsval) : jsval := JObj [("code", code)].

(** The provider refuses the code: status 400, [{error:"invalid_grant"}]. *)
Definition expired : Runtime :=
  runtime (json 400 (JObj [("error", JStr "invalid_grant")])) unreachable.

(** The provider answers 200 without an [access_token]. *)
Definition tokenless : Runtime :=
  runtime (json 200 (JObj [("token_type", JStr "Bearer")])) unreachable.

(** Token and profile are both served. *)
Definition alice : Runtime :=
  runtime (json 200 (JObj [("access_token", JStr "tok-abc")]))
          (json 200 (JObj [("id", JStr "1"); ("username", JStr "alice")])).

(** The token is served, the profile call is refused. *)
Definition unauthorized : Runtime :=
  runtime (json 200 (JObj [("access_token", JStr "tok-abc")]))
          (json 401 (JObj [("message", JStr "401: Unauthorized")])).

(** As [unauthorized], with a provider whose message quotes the token. *)
Definition echoing : Runtime :=
  runtime (json 200 (JObj [("access_token", JStr "tok-abc")]))
          (json 401 (JObj [("message", JStr "Invalid token tok-abc")])).

(** As [unauthorized], with another token. *)
Definition unauthorized_too : Runtime :=
  runtime (json 200 (JObj [("access_token", JStr "tok-xyz")]))
          (json 401 (JObj [("message", JStr "401: Unauthorized")])).

(** The provider answers 200 with the JSON body [null], to the exchange
    and to the profile call. *)
Definition null_token_body : Runtime := runtime (json 200 JNull) unreachable.

Definition null_profile : Runtime :=
  runtime (json 200 (JObj [("access_token", JStr "tok-abc")])) (json 200 JNull).

End Scenario.

(** ** Further observations and scenarios *)

Module Observe.
Import Js Server.

(** The profile a profile call yields: the parsed body of a response with a
    success status, when it is neither [null] nor [undefined]. *)
Definition profile_obtained (o : FetchOutcome) : option jsval :=
  match o with
  | Rejected _ => None
  | Responded r =>
      match resp_json r with
      | Throw _ => None
      | Ok user => if response_ok r && negb (nullish user) then Some user else None
      end
  end.

(** The error a call ends in before its status is looked at: the rejection
    of [fetch], or the rejection of [response.json()]. *)
Definition transport_error (o : FetchOutcome) : option JsError :=
  match o with
  | Rejected e => Some e
  | Responded r =>
      match resp_json r with
      | Throw e => Some e
      | Ok _ => None
      end
  end.

End Observe.

Module MoreScenarios.
Import Js Server Scenario.

(** The provider cannot be reached at all. *)
Definition offline : Runtime := runtime unreachable unreachable.

(** The token is served, the profile endpoint cannot be reached. *)
Definition profile_offline : Runtime :=
  runtime (json 200 (JObj [("access_token", JStr "tok-abc")])) unreachable.

(** The token is an object that cannot be converted to a string. *)
Definition odd_token : Runtime :=
  runtime (json 200 (JObj [("access_token", JObj [("toString", JBool true)])]))
          unreachable.

End MoreScenarios.

(** ** Start-up: configuration and banner *)

Module Startup.
Import Js Server.
Local Open Scope js_scope.

(** The variables of [process.env] read when the server starts. *)
Record StartEnv : Type := mkStartEnv {
  PORT : option string;
  WEBSITE_HOSTNAME : option string;
  FRONTEND_URL : option string
}.

(** [process.env.X]: a string, or [undefined] when the variable is unset. *)
Definition env_value (o : option string) : jsval :=
  match o with
  | Some s => JStr s
  | None => JUndefined
  end.

(** [a || b] *)
Definition js_or (a b : jsval) : jsval := if truthy a then a else b.

(** [const PORT = process.env.PORT || 3001] *)
Definition port (env : StartEnv) : jsval :=
  js_or (env_value (PORT env)) (JNum 3001).

(** The options given to [cors]. *)
Definition cors_origin (env : StartEnv) : jsval :=
  js_or (env_value (FRONTEND_URL env)) (JStr "http://localhost:4200").

Definition cors_options (env : StartEnv) : jsval :=
  JObj [("origin", cors_origin env); ("credentials", JBool true)].

(** [if (process.env.WEBSITE_HOSTNAME) { ... }] *)
Definition azure_banner (env : StartEnv) : M unit :=
  if truthy (env_value (WEBSITE_HOSTNAME env)) then
    console_log [L "🔵 Running on Azure App Service"] ;;
    console_log [L "🔧 Host:"; LVal (env_value (WEBSITE_HOSTNAME env))]
  else
    ret tt.

(** The callback of [app.listen(PORT, ...)]. *)
Definition on_listening (env : StartEnv) : M unit :=
  p <- ToString (port env) ;;
  console_log [L ("🚀 KvantoBot Web API running on port " ++ p)] ;;
  p <- ToString (port env) ;;
  console_log [L ("🔗 API available at http://localhost:" ++ p ++ "/api")] ;;
  f <- ToString (env_value (FRONTEND_URL env)) ;;
  console_log [L ("🌐 Frontend URL: " ++ f)].

End Startup.

(** * Properties *)

(** ** The form serializer and its parser *)

Module FormFacts.
Import Form.

Lemma append_nil_r (a : string) : a ++ "" = a.
Proof. induction a as [|x a IH]; simpl; [reflexivity | now rewrite IH]. Qed.

Lemma append_assoc (a b c : string) : (a ++ b) ++ c = a ++ b ++ c.
Proof. induction a as [|x a IH]; simpl; [reflexivity | now rewrite IH]. Qed.

Lemma occurs_app c a b : occurs c (a ++ b) = occurs c a || occurs c b.
Proof.
  induction a as [|x a IH]; simpl; [reflexivity|].
  now rewrite IH, orb_assoc.
Qed.

(** An encoded byte holds neither separator. *)
Lemma encode_byte_clean c :
  occurs "&" (encode_byte c) = false /\ occurs "=" (encode_byte c) = false.
Proof. destruct c as [[] [] [] [] [] [] [] []]; split; reflexivity. Qed.

Lemma urlencode_clean s :
  occurs "&" (urlencode s) = false /\ occurs "=" (urlencode s) = false.
Proof.
  induction s as [|c s [IHa IHe]]; simpl; [now split|].
  destruct (encode_byte_clean c) as [Ha He].
  now rewrite !occurs_app, Ha, He, IHa, IHe.
Qed.

(** Decoding undoes the encoding of a byte, whatever follows it. *)
Lemma decode_encode_byte c rest :
  percent_decode (plus_to_space (encode_byte c ++ rest))
  = String c (percent_decode (plus_to_space rest)).
Proof. destruct c as [[] [] [] [] [] [] [] []]; reflexivity. Qed.

Lemma decode_urlencode s : percent_decode (plus_to_space (urlencode s)) = s.
Proof.
  induction s as [|c s IH]; simpl; [reflexivity|].
  now rewrite decode_encode_byte, IH.
Qed.

Lemma split_clean sep a b :
  occurs sep a = false -> split sep (a ++ String sep b) = a :: split sep b.
Proof.
  induction a as [|x a IH]; simpl.
  - intros _. now rewrite Ascii.eqb_refl.
  - intros H. apply orb_false_elim in H as [Hx Ha].
    rewrite Ascii.eqb_sym, Hx, (IH Ha). reflexivity.
Qed.

Lemma split_single sep a : occurs sep a = false -> split sep a = [a].
Proof.
  induction a as [|x a IH]; simpl; [reflexivity|].
  intros H. apply orb_false_elim in H as [Hx Ha].
  rewrite Ascii.eqb_sym, Hx, (IH Ha). reflexivity.
Qed.

Lemma cut_clean sep a b :
  occurs sep a = false -> cut sep (a ++ String sep b) = (a, b).
Proof.
  induction a as [|x a IH]; simpl.
  - intros _. now rewrite Ascii.eqb_refl.
  - intros H. apply orb_false_elim in H as [Hx Ha].
    rewrite Ascii.eqb_sym, Hx, (IH Ha). reflexivity.
Qed.

Lemma tuple_clean kv : occurs "&" (tuple kv) = false.
Proof.
  unfold tuple. rewrite !occurs_app.
  destruct (urlencode_clean (fst kv)) as [-> _].
  destruct (urlencode_clean (snd kv)) as [-> _]. reflexivity.
Qed.

Lemma tuple_not_empty kv : (tuple kv =? "") = false.
Proof. unfold tuple. destruct (urlencode (fst kv)); reflexivity. Qed.

Lemma parse_tuple_tuple k v : parse_tuple (tuple (k, v)) = (k, v).
Proof.
  unfold parse_tuple, tuple. simpl fst; simpl snd.
  change ("=" ++ urlencode v) with (String "=" (urlencode v)).
  rewrite cut_clean by apply urlencode_clean.
  now rewrite !decode_urlencode.
Qed.

Lemma serialize_cons kv rest :
  serialize (kv :: rest)
  = match rest with
    | [] => tuple kv
    | _ :: _ => tuple kv ++ String "&" (serialize rest)
    end.
Proof.
  destruct kv as [k v]. unfold tuple. simpl.
  destruct rest.
  - now rewrite append_nil_r.
  - now rewrite append_assoc.
Qed.

Lemma split_serialize kv rest :
  split "&" (serialize (kv :: rest)) = map tuple (kv :: rest).
Proof.
  revert kv. induction rest as [|kv' rest IH]; intros kv; rewrite serialize_cons.
  - apply split_single, tuple_clean.
  - rewrite split_clean by apply tuple_clean. now rewrite IH.
Qed.

(** What is serialized is what the receiver parses: the same fields, in
    the same order, with the same values. *)
Lemma parse_serialize params : parse (serialize params) = params.
Proof.
  destruct params as [|kv rest]; [reflexivity|].
  unfold parse. rewrite split_serialize.
  induction (kv :: rest) as [|[k v] l IH]; [reflexivity|].
  cbn [map filter]. rewrite tuple_not_empty. cbn [negb map].
  now rewrite parse_tuple_tuple, IH.
Qed.

End FormFacts.

Module DateFacts.
Import JsDate.
Local Open Scope Z_scope.

Ltac split_eqb :=
  repeat match goal with
         | |- context [?a =? ?b] => destruct (Z.eqb_spec a b)
         end.

Lemma quot_step_4 y :
  (y + 1 - 1969) / 4 = (y - 1969) / 4 + (if y mod 4 =? 0 then 1 else 0).
Proof. split_eqb; Z.div_mod_to_equations; lia. Qed.

Lemma quot_step_100 y :
  (y + 1 - 1901) / 100 = (y - 1901) / 100 + (if y mod 100 =? 0 then 1 else 0).
Proof. split_eqb; Z.div_mod_to_equations; lia. Qed.

Lemma quot_step_400 y :
  (y + 1 - 1601) / 400 = (y - 1601) / 400 + (if y mod 400 =? 0 then 1 else 0).
Proof. split_eqb; Z.div_mod_to_equations; lia. Qed.

Lemma DayFromYear_succ y : DayFromYear (y + 1) = DayFromYear y + DaysInYear y.
Proof.
  unfold DayFromYear, DaysInYear.
  rewrite quot_step_4, quot_step_100, quot_step_400.
  assert (y mod 400 = 0 -> y mod 100 = 0) by (Z.div_mod_to_equations; lia).
  assert (y mod 100 = 0 -> y mod 4 = 0) by (Z.div_mod_to_equations; lia).
  split_eqb; cbn [negb]; lia.
Qed.

Lemma DaysInYear_range y : 365 <= DaysInYear y <= 366.
Proof. unfold DaysInYear. split_eqb; cbn [negb]; lia. Qed.

Lemma YearFromTime_spec t :
  DayFromYear (YearFromTime t) <= Day t < DayFromYear (YearFromTime t + 1).
Proof.
  unfold YearFromTime.
  set (d := Day t). set (y := 1970 + 400 * d / 146097).
  assert (Hlo : DayFromYear (y - 1) <= d).
  { unfold DayFromYear, y. Z.div_mod_to_equations. lia. }
  assert (Hhi : d < DayFromYear (y + 2)).
  { unfold DayFromYear, y. Z.div_mod_to_equations. lia. }
  destruct (Z.leb_spec (DayFromYear (y + 1)) d).
  - replace (y + 1 + 1) with (y + 2) by lia. lia.
  - destruct (Z.leb_spec (DayFromYear y) d).
    + lia.
    + replace (y - 1 + 1) with y by lia. lia.
Qed.

Lemma DayWithinYear_range t :
  0 <= DayWithinYear t < DaysInYear (YearFromTime t).
Proof.
  unfold DayWithinYear.
  pose proof (YearFromTime_spec t) as H.
  rewrite DayFromYear_succ in H. lia.
Qed.

Lemma month_and_date t :
  0 <= MonthFromTime t <= 11
  /\ 1 <= DateFromTime t <= days_in_month (YearFromTime t) (MonthFromTime t + 1).
Proof.
  pose proof (DayWithinYear_range t) as Hd.
  pose proof (DaysInYear_range (YearFromTime t)) as Hy.
  unfold DateFromTime, MonthFromTime, InLeapYear.
  set (d := DayWithinYear t) in *.
  destruct (Z.eqb_spec (DaysInYear (YearFromTime t)) 366) as [Hleap | Hleap];
    repeat match goal with
           | |- context [?a <? ?b] => destruct (Z.ltb_spec a b)
           end;
    cbn [days_in_month Z.add Pos.add Pos.succ];
    try (apply Z.eqb_eq in Hleap as Hleap'; rewrite Hleap');
    try (apply Z.eqb_neq in Hleap as Hleap'; rewrite Hleap');
    lia.
Qed.

Lemma YearFromTime_range t :
  valid_time t -> -271821 <= YearFromTime t <= 275760.
Proof.
  intros Ht. pose proof (YearFromTime_spec t) as [Hlo Hhi].
  assert (Hd : -100000000 <= Day t <= 100000000).
  { unfold valid_time, maxTime in Ht. unfold Day, msPerDay.
    Z.div_mod_to_equations. lia. }
  set (y := YearFromTime t) in *.
  unfold DayFromYear in Hlo, Hhi.
  split; Z.div_mod_to_equations; lia.
Qed.

(** Digits, as written and as read. *)

Lemma digit_code n : nat_of_ascii (digit n) = (48 + Z.to_nat (n mod 10))%nat.
Proof.
  unfold digit. apply nat_ascii_embedding.
  pose proof (Z.mod_pos_bound n 10). lia.
Qed.

Lemma digit_value_digit n : digit_value (digit n) = Some (n mod 10).
Proof.
  unfold digit_value. rewrite digit_code.
  pose proof (Z.mod_pos_bound n 10 ltac:(lia)) as Hn.
  destruct (Z.leb_spec 48 (Z.of_nat (48 + Z.to_nat (n mod 10)))); [|lia].
  destruct (Z.leb_spec (Z.of_nat (48 + Z.to_nat (n mod 10))) 57); [|lia].
  cbn [andb]. f_equal. lia.
Qed.

Lemma digit_not c n : (nat_of_ascii c < 48)%nat -> Ascii.eqb (digit n) c = false.
Proof.
  intros Hc. destruct (Ascii.eqb_spec (digit n) c) as [E|]; [|reflexivity].
  apply (f_equal nat_of_ascii) in E. rewrite digit_code in E. lia.
Qed.

Lemma read_pad2 n acc k :
  0 <= n < 100 -> read_digits 2 acc (pad2 n k) = Some (100 * acc + n, k).
Proof.
  intros Hn. unfold pad2. cbn [read_digits]. rewrite !digit_value_digit.
  do 2 f_equal. Z.div_mod_to_equations. lia.
Qed.

Lemma read_pad3 n acc k :
  0 <= n < 1000 -> read_digits 3 acc (pad3 n k) = Some (1000 * acc + n, k).
Proof.
  intros Hn. unfold pad3, pad2. cbn [read_digits]. rewrite !digit_value_digit.
  do 2 f_equal. Z.div_mod_to_equations. lia.
Qed.

Lemma read_pad4 n acc k :
  0 <= n < 10000 -> read_digits 4 acc (pad4 n k) = Some (10000 * acc + n, k).
Proof.
  intros Hn. unfold pad4, pad3, pad2. cbn [read_digits].
  rewrite !digit_value_digit. do 2 f_equal. Z.div_mod_to_equations. lia.
Qed.

Lemma read_pad6 n acc k :
  0 <= n < 1000000 -> read_digits 6 acc (pad6 n k) = Some (1000000 * acc + n, k).
Proof.
  intros Hn. unfold pad6, pad4, pad3, pad2. cbn [read_digits].
  rewrite !digit_value_digit. do 2 f_equal. Z.div_mod_to_equations. lia.
Qed.

Lemma read_year_field y k :
  -999999 <= y <= 999999 -> read_year (year_field y k) = Some (y, k).
Proof.
  intros Hy. unfold year_field.
  destruct (Z.leb_spec 0 y); [destruct (Z.leb_spec y 9999)|]; cbn [andb].
  - pose proof (read_pad4 y 0 k ltac:(lia)) as R. unfold pad4 in *.
    cbn [read_year]. rewrite !digit_not by (cbv; lia).
    rewrite R. repeat f_equal; lia.
  - destruct (Z.ltb_spec y 0); [lia|]. cbn [read_year Ascii.eqb Bool.eqb].
    rewrite read_pad6 by lia. repeat f_equal; lia.
  - destruct (Z.ltb_spec y 0); [|lia]. cbn [read_year Ascii.eqb Bool.eqb].
    rewrite read_pad6 by lia.
    destruct (Z.eqb_spec (1000000 * 0 + Z.abs y) 0); [lia|]. repeat f_equal; lia.
Qed.

(** The timestamp of a valid time value is an ISO 8601 date and time. *)
Lemma toISOString_is_iso8601 t :
  valid_time t -> is_iso8601 (toISOString t) = true.
Proof.
  intros Ht.
  pose proof (YearFromTime_range t Ht) as Hy.
  pose proof (month_and_date t) as [Hm Hd].
  assert (Hdm : days_in_month (YearFromTime t) (MonthFromTime t + 1) <= 31).
  { unfold days_in_month.
    repeat match goal with
           | |- context [match ?x with _ => _ end] => destruct x
           end; lia. }
  unfold is_iso8601, toISOString.
  rewrite read_year_field by lia. cbn [expect Ascii.eqb Bool.eqb].
  rewrite read_pad2 by lia. cbn [expect Ascii.eqb Bool.eqb].
  rewrite read_pad2 by lia. cbn [expect Ascii.eqb Bool.eqb].
  rewrite read_pad2 by (unfold HourFromTime; Z.div_mod_to_equations; lia).
  cbn [expect Ascii.eqb Bool.eqb].
  rewrite read_pad2 by (unfold MinFromTime; Z.div_mod_to_equations; lia).
  cbn [expect Ascii.eqb Bool.eqb].
  rewrite read_pad2 by (unfold SecFromTime; Z.div_mod_to_equations; lia).
  cbn [expect Ascii.eqb Bool.eqb].
  rewrite read_pad3
    by (unfold msFromTime, msPerSecond; Z.div_mod_to_equations; lia).
  replace (100 * 0 + (MonthFromTime t + 1)) with (MonthFromTime t + 1) by lia.
  replace (100 * 0 + DateFromTime t) with (DateFromTime t) by lia.
  repeat (apply andb_true_intro; split); try reflexivity;
    apply Z.leb_le; unfold HourFromTime, MinFromTime, SecFromTime;
    Z.div_mod_to_equations; lia.
Qed.

End DateFacts.

(** ** The handlers *)

Module ServerFacts.
Import Js Server.

Lemma get_ok v k x : get v k = Ok x -> nullish v = false /\ x = own k v.
Proof. destruct v; simpl; intros H; inversion H; auto. Qed.

Lemma get_throw v k e : get v k = Throw e -> nullish v = true.
Proof. destruct v; simpl; intros H; inversion H; auto. Qed.

Lemma destructure_not_nullish v k src :
  nullish v = false -> destructure v k src = Ok (own k v).
Proof. destruct v; simpl; intros H; congruence. Qed.

Lemma substring_ok code prefix :
  substring_0_10 code = Ok prefix -> exists s, code = JStr s.
Proof. destruct code; simpl; intros H; inversion H; eauto. Qed.

Lemma substring_not_string code :
  truthy code = true -> is_string code = false ->
  substring_0_10 code = Throw (TypeError "code.substring is not a function").
Proof. destruct code; simpl; intros Ht Hs; congruence. Qed.

(** Every path of a handler is reached by unfolding the monad and
    splitting on the tests it meets, innermost first. *)
Ltac run_unfold H :=
  unfold run, callback, exchangeCodeForToken, fetchDiscordUserInfo, ToString, fetch,
         console_log, console_error, try_catch, bind, ret, lift, throw, ask, emit in H;
  cbv beta iota zeta in H.

Ltac run_step H :=
  match type of H with
  | context [match ?x with _ => _ end] =>
      lazymatch x with
      | context [match _ with _ => _ end] => fail
      | _ => let E := fresh "E" in destruct x eqn:E; cbv beta iota zeta in H
      end
  end.

Ltac run_paths H := run_unfold H; repeat run_step H; injection H as <- <-.

(** Which calls a trace holds, and what the provider answered to each. *)
Ltac tidy_calls :=
  repeat match goal with
         | H : False |- _ => destruct H
         | H : In _ (outbound _) |- _ => progress cbn [outbound flat_map app] in H
         | H : In _ [] |- _ => destruct H
         | H : In _ (_ :: _) |- _ => destruct H as [<- | H]
         | H : fetch_url (token_request _ _) = profile_url |- _ => discriminate H
         | H : fetch_url (profile_request _) = token_url |- _ => discriminate H
         | H : network ?rt ?rq = _, H' : network ?rt ?rq = _ |- _ =>
             rewrite H in H'; first [discriminate H' | injection H' as <-]
         | H : resp_json ?r = _, H' : resp_json ?r = _ |- _ =>
             rewrite H in H'; first [discriminate H' | injection H' as <-]
         end.

(** What the tests of a path say, in plain terms. *)
Ltac tidy :=
  repeat first
    [ progress tidy_calls
    | match goal with
      | H : negb _ = true |- _ => apply negb_true_iff in H
      | H : negb _ = false |- _ => apply negb_false_iff in H
      | H : to_string ?f ?v = _, H' : to_string ?f ?v = _ |- _ =>
          rewrite H in H'; first [discriminate H' | injection H' as <-]
      | H : get ?v ?k = _, H' : get ?v ?k = _ |- _ =>
          rewrite H in H'; first [discriminate H' | injection H' as <-]
      | H : get _ _ = Ok _ |- _ => apply get_ok in H as [? ->]
      | H : get _ _ = Throw _ |- _ => apply get_throw in H
      | H : substring_0_10 _ = Ok _ |- _ => apply substring_ok in H as [? ->]
      end ].

(** C1, as the code has it.  In every run of the callback handler in which
    the token-exchange call was answered with a status outside 200-299, the
    reply is HTTP 500 (not a 400-class status) with the body
    [{error: "Internal server error", details}], the profile endpoint is not
    called, and whenever the provider's body is a JSON value other than
    [null] whose [error_description || error] converts to a string, [details]
    is ["Token exchange failed: "] followed by that text. *)
Theorem exchange_failure_is_internal_error rt req_body res tr rq r :
  run (callback req_body) rt = (res, tr) ->
  In rq (outbound tr) -> fetch_url rq = token_url ->
  network rt rq = Responded r -> response_ok r = false ->
  exists details,
    res = Ok {| status := 500;
                body := JObj [ ("error", JStr "Internal server error");
                               ("details", JStr details) ] |}
    /\ calls_to profile_url tr = []
    /\ forall result text,
         resp_json r = Ok result -> nullish result = false ->
         to_string (number_to_string rt) (provider_error result) = Ok text ->
         details = "Token exchange failed: " ++ text.
Proof.
  intros H Hin Hurl Hnet Hok.
  run_paths H; tidy; try congruence.
  all: eexists; split; [reflexivity|]; split; [reflexivity|].
  all: intros result text Hj Hn Ht; tidy; unfold provider_error in Ht.
  all: try congruence.
  all: match goal with E : truthy _ = _ |- _ => rewrite E in Ht end; tidy.
  all: reflexivity.
Qed.

(** Where an element sits in a list of at most two. *)
Lemma in_short_list {A} (l pre post : list A) (x : A) :
  l = (pre ++ x :: post)%list -> (length l <= 2)%nat ->
  (pre = [] /\ l = x :: post) \/ (exists y, pre = [y] /\ l = [y; x] /\ post = []).
Proof.
  intros -> Hlen. destruct pre as [|y [|z pre]]; cbn in *.
  - now left.
  - right. exists y. destruct post; cbn in Hlen; [auto | lia].
  - rewrite length_app in Hlen. cbn in Hlen. lia.
Qed.

Lemma token_obtained_some rt rq r result :
  network rt rq = Responded r -> resp_json r = Ok result ->
  response_ok r = true -> truthy (own "access_token" result) = true ->
  token_obtained (network rt rq) = Some (own "access_token" result).
Proof. intros -> Hj Hok Ht. cbn. now rewrite Hj, Hok, Ht. Qed.

(** C2.  In every run of the callback handler, a call to the profile
    endpoint comes directly after the token-exchange call, which was answered
    with a success status and a body whose [access_token] is truthy, and it
    carries that token as its bearer; and when the token exchange yields no
    such token (rejected, failed status, unreadable body, no usable token),
    the profile endpoint is not called at all. *)
Theorem profile_fetch_needs_token rt req_body res tr :
  run (callback req_body) rt = (res, tr) ->
  (forall pre rq post,
     outbound tr = (pre ++ rq :: post)%list -> fetch_url rq = profile_url ->
     exists code tok text,
       pre = [token_request (process_env rt) code]
       /\ token_obtained (network rt (token_request (process_env rt) code)) = Some tok
       /\ to_string (number_to_string rt) tok = Ok text
       /\ rq = profile_request text)
  /\ (forall rq,
        In rq (outbound tr) -> fetch_url rq = token_url ->
        token_obtained (network rt rq) = None ->
        calls_to profile_url tr = []).
Proof.
  intros H. run_paths H; tidy; split.
  all: try (intros rq Hin Hurl Hnone; try reflexivity; tidy;
            erewrite token_obtained_some in Hnone by eassumption; discriminate Hnone).
  all: intros pre rq post Hsplit Hurl; cbn [outbound flat_map app] in Hsplit.
  all: apply in_short_list in Hsplit as [[-> Hl] | (y & -> & Hl & ->)]; [ | | cbn; lia ].
  all: inversion Hl; subst; try discriminate Hurl.
  all: eexists _, _, _; split; [reflexivity|]; split;
    [ eapply token_obtained_some; eassumption | split; [eassumption | reflexivity] ].
Qed.


(** C4, as the code has it.  When the token-exchange call is answered with
    a success status and a JSON body other than [null] whose [access_token]
    is absent or falsy, the reply is HTTP 400 with the body
    [{error: "Failed to get access token"}], and the profile endpoint is not
    called. *)
Theorem missing_token_is_rejected rt req_body res tr rq r result :
  run (callback req_body) rt = (res, tr) ->
  In rq (outbound tr) -> fetch_url rq = token_url ->
  network rt rq = Responded r -> response_ok r = true ->
  resp_json r = Ok result -> nullish result = false ->
  truthy (own "access_token" result) = false ->
  res = Ok {| status := 400;
              body := JObj [("error", JStr "Failed to get access token")] |}
  /\ calls_to profile_url tr = [].
Proof.
  intros H Hin Hurl Hnet Hok Hjson Hnn Htok.
  run_paths H; tidy; try congruence.
  split; reflexivity.
Qed.

(** C5.  When the profile call was made (so a token had been obtained) and
    was answered with a status outside 200-299, the reply is HTTP 500 with
    the body [{error: "Internal server error", details}]; it has no [user]
    field; and [details] is ["Failed to fetch user info: "] followed by the
    provider's [message] whenever the provider's body is a JSON value other
    than [null] whose [message] converts to a string. *)
Theorem profile_failure_is_internal_error rt req_body res tr rq r :
  run (callback req_body) rt = (res, tr) ->
  In rq (outbound tr) -> fetch_url rq = profile_url ->
  network rt rq = Responded r -> response_ok r = false ->
  exists details,
    res = Ok {| status := 500;
                body := JObj [ ("error", JStr "Internal server error");
                               ("details", JStr details) ] |}
    /\ (forall reply, res = Ok reply -> has_field "user" (body reply) = false)
    /\ forall result text,
         resp_json r = Ok result -> nullish result = false ->
         to_string (number_to_string rt) (own "message" result) = Ok text ->
         details = "Failed to fetch user info: " ++ text.
Proof.
  intros H Hin Hurl Hnet Hok.
  run_paths H; tidy; try congruence.
  all: eexists; split; [reflexivity|]; split;
    [intros reply [= <-]; reflexivity|].
  all: intros result text Hj Hn Ht; tidy; try congruence.
  all: reflexivity.
Qed.

(** C6.  When the token-exchange call was answered with the JSON body
    [result], and the profile call with a success status and the profile
    [user] (a JSON value other than [null]), the reply is HTTP 200 and its
    body has exactly the two fields [access_token], the token of [result],
    and [user], the whole profile. *)
Theorem both_calls_succeed rt req_body res tr trq r1 result prq r2 user :
  run (callback req_body) rt = (res, tr) ->
  In trq (outbound tr) -> fetch_url trq = token_url ->
  network rt trq = Responded r1 -> resp_json r1 = Ok result ->
  In prq (outbound tr) -> fetch_url prq = profile_url ->
  network rt prq = Responded r2 -> response_ok r2 = true ->
  resp_json r2 = Ok user -> nullish user = false ->
  res = Ok {| status := 200;
              body := JObj [ ("access_token", own "access_token" result);
                             ("user", user) ] |}.
Proof.
  intros H Hin1 Hurl1 Hnet1 Hjson1 Hin2 Hurl2 Hnet2 Hok2 Hjson2 Hnn.
  run_paths H; tidy; try congruence.
Qed.

(** C7.  Every token exchange makes exactly one outbound call: a POST to
    the provider's token endpoint with content type
    application/x-www-form-urlencoded, whose body parses to exactly five
    fields: [client_id], [client_secret] and [redirect_uri] with the values
    of [DISCORD_CLIENT_ID], [DISCORD_CLIENT_SECRET] and
    [DISCORD_REDIRECT_URI] in the process configuration (the text
    ["undefined"] for a variable that is not set), [grant_type] fixed to
    ["authorization_code"], and the supplied [code].  The response body is
    read as JSON before the status is looked at: an unreadable body makes the
    exchange fail with the parser's error whatever the status, and a readable
    one is returned when the status is a success. *)
Theorem token_request_is_form_post rt code tr0 :
  let rq := token_request (process_env rt) code in
  let configured (variable : option string) :=
    match variable with
    | Some value => value
    | None => "undefined"
    end in
  fetch_url rq = "https://discord.com/api/oauth2/token"
  /\ fetch_method rq = "POST"
  /\ fetch_headers rq = [("Content-Type", "application/x-www-form-urlencoded")]
  /\ (exists form,
        fetch_body rq = Some form
        /\ Form.parse form
           = [ ("client_id", configured (DISCORD_CLIENT_ID (process_env rt)));
               ("client_secret", configured (DISCORD_CLIENT_SECRET (process_env rt)));
               ("grant_type", "authorization_code");
               ("code", code);
               ("redirect_uri", configured (DISCORD_REDIRECT_URI (process_env rt))) ])
  /\ exists res tr,
       exchangeCodeForToken (JStr code) rt tr0 = (res, tr)
       /\ outbound tr = (outbound tr0 ++ [rq])%list
       /\ (forall r e, network rt rq = Responded r -> resp_json r = Throw e ->
                       res = Throw e)
       /\ (forall r result, network rt rq = Responded r ->
                            resp_json r = Ok result -> response_ok r = true ->
                            res = Ok result).
Proof.
  intros rq configured. repeat split.
  - exists (Form.serialize (tokenData (process_env rt) code)). split; [reflexivity|].
    rewrite FormFacts.parse_serialize. unfold tokenData, env_string, configured.
    reflexivity.
  - destruct (exchangeCodeForToken (JStr code) rt tr0) as [res tr] eqn:H.
    exists res, tr. split; [reflexivity|].
    unfold exchangeCodeForToken, ToString, fetch, console_log, console_error,
      bind, ret, lift, throw, ask, emit in H.
    cbv beta iota zeta in H. cbn [to_string] in H. cbv beta iota zeta in H.
    repeat run_step H; injection H as <- <-.
    all: split; [ unfold outbound; rewrite !flat_map_app; cbn [flat_map app];
                  now rewrite ?app_nil_r, ?app_assoc | ].
    all: split; [ intros r' e' Hnet Hjson | intros r' result Hnet Hjson Hok ];
      subst rq; tidy; try congruence.
Qed.

(** C8.  The health handler replies HTTP 200 with [status] equal to ["ok"],
    the service name and an ISO 8601 timestamp, whatever the provider would
    answer and without any outbound call (the trace is left as it was); the
    clock holds a valid time value. *)
Theorem health_is_ok rt tr0 :
  JsDate.valid_time (clock rt) ->
  exists timestamp,
    health rt tr0
    = (Ok {| status := 200;
             body := JObj [ ("status", JStr "ok");
                            ("service", JStr "KvantoBot Web API");
                            ("timestamp", JStr timestamp) ] |}, tr0)
    /\ JsDate.is_iso8601 timestamp = true.
Proof.
  intros Hclock. exists (JsDate.toISOString (clock rt)). split.
  - reflexivity.
  - now apply DateFacts.toISOString_is_iso8601.
Qed.

(** C9.  When the [code] field is truthy and not a string (a number,
    [true], an array, an object), the reply is HTTP 500 with the body
    [{error: "Internal server error", details: "code.substring is not a
    function"}], not the 400 of the validation, and no outbound call is
    made. *)
Theorem non_string_code_is_internal_error rt req_body :
  nullish req_body = false ->
  truthy (own "code" req_body) = true ->
  is_string (own "code" req_body) = false ->
  fst (run (callback req_body) rt)
  = Ok {| status := 500;
          body := JObj [ ("error", JStr "Internal server error");
                         ("details", JStr "code.substring is not a function") ] |}
  /\ outbound (snd (run (callback req_body) rt)) = [].
Proof.
  intros Hbody Htruthy Hstr.
  unfold run, callback, try_catch, bind, lift, ret.
  rewrite (destructure_not_nullish _ _ _ Hbody), Htruthy.
  rewrite (substring_not_string _ Htruthy Hstr).
  split; reflexivity.
Qed.

(** C10, as the code has it.  The handler always replies; a reply other
    than HTTP 200 has a body with an [error] field and possibly a [details]
    field, both strings, and nothing else, so no [access_token] and no
    [user] field; and when the profile call was made, the error reply does
    not depend on the token the exchange had returned: every run, of any
    request and with any token, in which the profile call has the same
    outcome gets the same reply. *)
Theorem error_reply_ignores_token rt req_body res tr :
  run (callback req_body) rt = (res, tr) ->
  exists reply,
    res = Ok reply
    /\ (status reply <> 200 ->
        error_shape (body reply)
        /\ has_field "access_token" (body reply) = false
        /\ has_field "user" (body reply) = false
        /\ forall rt' req_body' res' tr' prq prq',
             number_to_string rt' = number_to_string rt ->
             run (callback req_body') rt' = (res', tr') ->
             In prq (outbound tr) -> fetch_url prq = profile_url ->
             In prq' (outbound tr') -> fetch_url prq' = profile_url ->
             network rt' prq' = network rt prq ->
             res' = res).
Proof.
  intros H. run_paths H.
  all: eexists; split; [reflexivity|]; intros Hst; cbn [status] in Hst;
    try congruence.
  all: split;
    [ unfold error_shape; cbn [body]; eexists;
      first [left; reflexivity | right; eexists; reflexivity] | ].
  all: split; [reflexivity|]; split; [reflexivity|].
  all: intros rt' req_body' res' tr' prq prq' Hnts H' Hin Hurl Hin' Hurl' Hnet.
  all: tidy_calls.
  all: run_paths H'; tidy_calls.
  all: rewrite ?Hnts in *.
  all: repeat match goal with
              | E : network ?rt ?rq = _, Hn : context [network ?rt ?rq] |- _ =>
                  rewrite E in Hn
              end;
       first [discriminate Hnet | injection Hnet as <- | idtac]; tidy; try congruence.
Qed.


End ServerFacts.

(** ** The theorems at concrete requests *)

Module Runs.
Import Js Server Scenario ServerFacts.

(** C1 as stated fails: the provider answers the exchange with status 400
    and [{error: "invalid_grant"}], and the reply is HTTP 500. *)
Lemma expired_code_replies_500 :
  token_obtained (network expired (token_request env "expired")) = None
  /\ network expired (token_request env "expired")
     = json 400 (JObj [("error", JStr "invalid_grant")])
  /\ response_ok {| resp_status := 400;
                    resp_json := Ok (JObj [("error", JStr "invalid_grant")]) |} = false
  /\ fst (run (callback (with_code (JStr "expired"))) expired)
     = Ok {| status := 500;
             body := JObj [ ("error", JStr "Internal server error");
                            ("details", JStr "Token exchange failed: invalid_grant") ] |}
  /\ ~ (400 <= 500 <= 499)%nat.
Proof. repeat split; try reflexivity. lia. Qed.

Lemma exchange_failure_witness :
  let out := run (callback (with_code (JStr "expired"))) expired in
  let rq := token_request env "expired" in
  let r := {| resp_status := 400;
              resp_json := Ok (JObj [("error", JStr "invalid_grant")]) |} in
  (In rq (outbound (snd out)) /\ fetch_url rq = token_url
   /\ network expired rq = Responded r /\ response_ok r = false)
  /\ exists details,
       fst out = Ok {| status := 500;
                       body := JObj [ ("error", JStr "Internal server error");
                                      ("details", JStr details) ] |}
       /\ calls_to profile_url (snd out) = []
       /\ forall result text,
            resp_json r = Ok result -> nullish result = false ->
            to_string (number_to_string expired) (provider_error result) = Ok text ->
            details = "Token exchange failed: " ++ text.
Proof.
  intros out rq r. split.
  - repeat split; try reflexivity. cbv. auto.
  - apply (exchange_failure_is_internal_error expired (with_code (JStr "expired"))
             (fst out) (snd out) rq r);
      try reflexivity.
    cbv. auto.
Defined.


Lemma profile_fetch_witness :
  let out := run (callback (with_code (JStr "valid123"))) alice in
  run (callback (with_code (JStr "valid123"))) alice = (fst out, snd out)
  /\ (forall pre rq post,
        outbound (snd out) = (pre ++ rq :: post)%list -> fetch_url rq = profile_url ->
        exists code tok text,
          pre = [token_request (process_env alice) code]
          /\ token_obtained (network alice (token_request (process_env alice) code))
             = Some tok
          /\ to_string (number_to_string alice) tok = Ok text
          /\ rq = profile_request text)
  /\ (forall rq,
        In rq (outbound (snd out)) -> fetch_url rq = token_url ->
        token_obtained (network alice rq) = None ->
        calls_to profile_url (snd out) = []).
Proof.
  intros out. split; [reflexivity|].
  apply (profile_fetch_needs_token alice (with_code (JStr "valid123")) (fst out) (snd out)).
  reflexivity.
Defined.



(** C4 as stated fails: the provider answers 200 without an access token,
    and the message of the 400 reply is not ["no access token returned"]. *)
Lemma tokenless_reply_says_failed :
  network tokenless (token_request env "valid123")
  = json 200 (JObj [("token_type", JStr "Bearer")])
  /\ token_obtained (network tokenless (token_request env "valid123")) = None
  /\ fst (run (callback (with_code (JStr "valid123"))) tokenless)
     = Ok {| status := 400;
             body := JObj [("error", JStr "Failed to get access token")] |}
  /\ "Failed to get access token" <> "no access token returned".
Proof. repeat split; try reflexivity. discriminate. Qed.

Lemma missing_token_witness :
  let out := run (callback (with_code (JStr "valid123"))) tokenless in
  let rq := token_request env "valid123" in
  let result := JObj [("token_type", JStr "Bearer")] in
  let r := {| resp_status := 200; resp_json := Ok result |} in
  (In rq (outbound (snd out)) /\ fetch_url rq = token_url
   /\ network tokenless rq = Responded r /\ response_ok r = true
   /\ resp_json r = Ok result /\ nullish result = false
   /\ truthy (own "access_token" result) = false)
  /\ fst out = Ok {| status := 400;
                     body := JObj [("error", JStr "Failed to get access token")] |}
  /\ calls_to profile_url (snd out) = [].
Proof.
  intros out rq result r. split.
  - repeat split; try reflexivity. cbv. auto.
  - apply (missing_token_is_rejected tokenless (with_code (JStr "valid123"))
             (fst out) (snd out) rq r result);
      try reflexivity.
    cbv. auto.
Defined.

Lemma profile_failure_witness :
  let out := run (callback (with_code (JStr "valid123"))) unauthorized in
  let rq := profile_request "tok-abc" in
  let r := {| resp_status := 401;
              resp_json := Ok (JObj [("message", JStr "401: Unauthorized")]) |} in
  (In rq (outbound (snd out)) /\ fetch_url rq = profile_url
   /\ network unauthorized rq = Responded r /\ response_ok r = false)
  /\ exists details,
       fst out = Ok {| status := 500;
                       body := JObj [ ("error", JStr "Internal server error");
                                      ("details", JStr details) ] |}
       /\ (forall reply, fst out = Ok reply -> has_field "user" (body reply) = false)
       /\ forall result text,
            resp_json r = Ok result -> nullish result = false ->
            to_string (number_to_string unauthorized) (own "message" result) = Ok text ->
            details = "Failed to fetch user info: " ++ text.
Proof.
  intros out rq r. split.
  - repeat split; try reflexivity. cbv. auto.
  - apply (profile_failure_is_internal_error unauthorized (with_code (JStr "valid123"))
             (fst out) (snd out) rq r);
      try reflexivity.
    cbv. auto.
Defined.

Lemma both_calls_witness :
  let out := run (callback (with_code (JStr "valid123"))) alice in
  let trq := token_request env "valid123" in
  let result := JObj [("access_token", JStr "tok-abc")] in
  let prq := profile_request "tok-abc" in
  let user := JObj [("id", JStr "1"); ("username", JStr "alice")] in
  (In trq (outbound (snd out)) /\ fetch_url trq = token_url
   /\ network alice trq = json 200 result
   /\ In prq (outbound (snd out)) /\ fetch_url prq = profile_url
   /\ network alice prq = json 200 user
   /\ nullish user = false)
  /\ fst out
     = Ok {| status := 200;
             body := JObj [ ("access_token", JStr "tok-abc");
                            ("user", JObj [("id", JStr "1"); ("username", JStr "alice")]) ] |}.
Proof.
  intros out trq result prq user. split.
  - repeat split; try reflexivity; cbv; auto.
  - apply (both_calls_succeed alice (with_code (JStr "valid123")) (fst out) (snd out)
             trq {| resp_status := 200; resp_json := Ok result |} result
             prq {| resp_status := 200; resp_json := Ok user |} user);
      try reflexivity; cbv; auto.
Defined.

Lemma health_witness :
  JsDate.valid_time (clock alice)
  /\ exists timestamp,
       health alice []
       = (Ok {| status := 200;
                body := JObj [ ("status", JStr "ok");
                               ("service", JStr "KvantoBot Web API");
                               ("timestamp", JStr timestamp) ] |}, [])
       /\ JsDate.is_iso8601 timestamp = true.
Proof.
  assert (Hclock : JsDate.valid_time (clock alice)).
  { cbv. split; discriminate. }
  split; [exact Hclock | exact (health_is_ok alice [] Hclock)].
Defined.

Lemma non_string_code_witness :
  (nullish (with_code (JNum 42)) = false
   /\ truthy (own "code" (with_code (JNum 42))) = true
   /\ is_string (own "code" (with_code (JNum 42))) = false)
  /\ fst (run (callback (with_code (JNum 42))) alice)
     = Ok {| status := 500;
             body := JObj [ ("error", JStr "Internal server error");
                            ("details", JStr "code.substring is not a function") ] |}
  /\ outbound (snd (run (callback (with_code (JNum 42))) alice)) = [].
Proof.
  split.
  - repeat split; reflexivity.
  - apply (non_string_code_is_internal_error alice (with_code (JNum 42)));
      reflexivity.
Defined.

(** C10 as stated fails: the provider's message for the refused profile
    call quotes the token, and the [details] of the 500 reply hold it. *)
Lemma echoed_token_reaches_caller :
  token_obtained (network echoing (token_request env "valid123")) = Some (JStr "tok-abc")
  /\ network echoing (profile_request "tok-abc")
     = json 401 (JObj [("message", JStr "Invalid token tok-abc")])
  /\ fst (run (callback (with_code (JStr "valid123"))) echoing)
     = Ok {| status := 500;
             body := JObj [ ("error", JStr "Internal server error");
                            ("details",
                             JStr "Failed to fetch user info: Invalid token tok-abc") ] |}
  /\ mentions "tok-abc"
       (JObj [ ("error", JStr "Internal server error");
               ("details", JStr "Failed to fetch user info: Invalid token tok-abc") ])
     = true.
Proof. repeat split; reflexivity. Qed.

Lemma error_reply_witness :
  let out := run (callback (with_code (JStr "valid123"))) unauthorized in
  run (callback (with_code (JStr "valid123"))) unauthorized = (fst out, snd out)
  /\ exists reply,
       fst out = Ok reply
       /\ (status reply <> 200 ->
           error_shape (body reply)
           /\ has_field "access_token" (body reply) = false
           /\ has_field "user" (body reply) = false
           /\ forall rt' req_body' res' tr' prq prq',
                number_to_string rt' = number_to_string unauthorized ->
                run (callback req_body') rt' = (res', tr') ->
                In prq (outbound (snd out)) -> fetch_url prq = profile_url ->
                In prq' (outbound tr') -> fetch_url prq' = profile_url ->
                network rt' prq' = network unauthorized prq ->
                res' = fst out).
Proof.
  intros out. split; [reflexivity|].
  apply (error_reply_ignores_token unauthorized (with_code (JStr "valid123"))
           (fst out) (snd out)).
  reflexivity.
Defined.

(** Other runs, for the record. *)

(** With another token and the same refusal of the profile call, the reply
    is the same. *)
Example another_token_same_reply :
  fst (run (callback (with_code (JStr "valid123"))) unauthorized_too)
  = fst (run (callback (with_code (JStr "valid123"))) unauthorized).
Proof. reflexivity. Qed.

(** A body without [code], and one whose [code] is [null]. *)
Example absent_code_replies_400 :
  run (callback (JObj [])) alice
  = (Ok {| status := 400;
           body := JObj [("error", JStr "Authorization code is required")] |}, []).
Proof. reflexivity. Qed.

Example null_code_replies_400 :
  run (callback (with_code JNull)) alice
  = (Ok {| status := 400;
           body := JObj [("error", JStr "Authorization code is required")] |}, []).
Proof. reflexivity. Qed.

(** No parsed body at all: the destructuring throws inside the [try]. *)
Example missing_body_replies_500 :
  fst (run (callback JUndefined) alice)
  = Ok {| status := 500;
          body := JObj [ ("error", JStr "Internal server error");
                         ("details",
                          JStr "Cannot destructure property 'code' of 'req.body' as it is undefined.") ] |}.
Proof. reflexivity. Qed.

(** A 200 answer whose JSON body is [null]: reading a property of it throws,
    at the exchange and at the profile alike. *)
Example null_token_body_replies_500 :
  fst (run (callback (with_code (JStr "valid123"))) null_token_body)
  = Ok {| status := 500;
          body := JObj [ ("error", JStr "Internal server error");
                         ("details",
                          JStr "Cannot read properties of null (reading 'access_token')") ] |}.
Proof. reflexivity. Qed.

Example null_profile_replies_500 :
  fst (run (callback (with_code (JStr "valid123"))) null_profile)
  = Ok {| status := 500;
          body := JObj [ ("error", JStr "Internal server error");
                         ("details",
                          JStr "Cannot read properties of null (reading 'username')") ] |}.
Proof. reflexivity. Qed.

(** The form body of the exchange, as sent. *)
Example token_form_as_sent :
  fetch_body (token_request env "a b&c")
  = Some ("client_id=1234567890&client_secret=s3cr3t&grant_type=authorization_code"
          ++ "&code=a+b%26c&redirect_uri=http%3A%2F%2Flocalhost%3A4200%2Fauth%2Fcallback").
Proof. reflexivity. Qed.

(** The clock of the scenarios, as the health check prints it. *)
Example health_timestamp :
  JsDate.toISOString (clock alice) = "2026-11-01T17:54:56.789Z".
Proof. reflexivity. Qed.

End Runs.

(** ** Further properties of the handlers *)

Module HandlerFacts.
Import Js Server Observe ServerFacts.

Lemma destructure_ok v k src x :
  destructure v k src = Ok x -> nullish v = false /\ x = own k v.
Proof. destruct v; simpl; intros H; inversion H; auto. Qed.

Lemma destructure_throw v k src e : destructure v k src = Throw e -> nullish v = true.
Proof. destruct v; simpl; intros H; inversion H; auto. Qed.

Lemma substring_throw code e :
  substring_0_10 code = Throw e -> is_string code = false.
Proof. destruct code; simpl; intros H; inversion H; auto. Qed.

Lemma truthy_string s : truthy (JStr s) = true <-> s <> "".
Proof.
  cbn. destruct (String.eqb_spec s ""); cbn; split; congruence.
Qed.

(** The code of the request goes to the provider as it came. *)
Ltac tidy_code :=
  repeat match goal with
         | H : to_string _ (JStr _) = Ok _ |- _ => cbn [to_string] in H; injection H as <-
         | H : to_string _ (JStr _) = Throw _ |- _ => discriminate H
         | H : destructure _ _ _ = Ok _ |- _ => apply destructure_ok in H as [? ?]
         | H : destructure _ _ _ = Throw _ |- _ => apply destructure_throw in H
         end.

(** X1.  No exception escapes the callback handler: every run ends in a
    reply, and the reply is one of three kinds: HTTP 200 with exactly
    [{access_token, user}], the token truthy and the profile not [null];
    HTTP 400 with exactly [{error}], one of the two messages; HTTP 500 with
    exactly [{error: "Internal server error", details}]. *)
Theorem reply_by_status rt req_body :
  exists reply tr,
    run (callback req_body) rt = (Ok reply, tr)
    /\ ((status reply = 200
         /\ exists tok user,
              body reply = JObj [("access_token", tok); ("user", user)]
              /\ truthy tok = true /\ nullish user = false)
        \/ (status reply = 400
            /\ (body reply = JObj [("error", JStr "Authorization code is required")]
                \/ body reply = JObj [("error", JStr "Failed to get access token")]))
        \/ (status reply = 500
            /\ exists details,
                 body reply = JObj [ ("error", JStr "Internal server error");
                                     ("details", JStr details) ])).
Proof.
  destruct (run (callback req_body) rt) as [res tr] eqn:H.
  run_paths H; tidy; eexists _, _; (split; [reflexivity|]).
  all: cbn [status body].
  all: first
    [ left; split; [reflexivity|]; eexists _, _; split; [reflexivity|]; split; assumption
    | right; left; split; [reflexivity|]; first [left; reflexivity | right; reflexivity]
    | right; right; split; [reflexivity|]; eexists; reflexivity ].
Qed.


(** X2.  The outbound calls of a run: none, unless the [code] of the request
    is a non-empty string; otherwise the token request carrying that very
    code, alone or followed by one profile request.  No other endpoint is
    called and no call is made twice. *)
Theorem outbound_calls_shape rt req_body :
  let calls := outbound (snd (run (callback req_body) rt)) in
  (exists code,
     nullish req_body = false /\ own "code" req_body = JStr code /\ code <> ""
     /\ (calls = [token_request (process_env rt) code]
         \/ exists text, calls = [token_request (process_env rt) code;
                                  profile_request text]))
  \/ (calls = []
      /\ (nullish req_body = true \/ truthy (own "code" req_body) = false
          \/ is_string (own "code" req_body) = false)).
Proof.
  intros calls. subst calls.
  destruct (run (callback req_body) rt) as [res tr] eqn:H. cbn [snd].
  run_paths H; tidy; tidy_code.
  all: cbn [outbound flat_map app].
  all: try (right; split; [reflexivity|];
            first [ left; assumption
                  | right; left; congruence
                  | right; right; eapply substring_throw; subst; eassumption ]).
  all: left; eexists; split; [assumption|]; split; [symmetry; eassumption|];
    split; [apply truthy_string; assumption|].
  all: first [left; reflexivity | right; eexists; reflexivity].
Qed.


Lemma token_obtained_inv o tok :
  token_obtained o = Some tok ->
  exists r result,
    o = Responded r /\ resp_json r = Ok result /\ response_ok r = true
    /\ truthy (own "access_token" result) = true /\ tok = own "access_token" result.
Proof.
  destruct o as [e|r]; cbn; [discriminate|].
  destruct (resp_json r) as [result|e] eqn:Hj; [|discriminate].
  destruct (response_ok r) eqn:Hok; [|discriminate].
  destruct (truthy (own "access_token" result)) eqn:Ht; cbn; [|discriminate].
  intros [= <-]. exists r, result. auto.
Qed.

Lemma profile_obtained_inv o user :
  profile_obtained o = Some user ->
  exists r,
    o = Responded r /\ resp_json r = Ok user /\ response_ok r = true
    /\ nullish user = false.
Proof.
  destruct o as [e|r]; cbn; [discriminate|].
  destruct (resp_json r) as [result|e] eqn:Hj; [|discriminate].
  destruct (response_ok r) eqn:Hok; [|discriminate].
  destruct (nullish result) eqn:Hn; cbn; [discriminate|].
  intros [= <-]. exists r. auto.
Qed.

Lemma profile_obtained_some rt rq r user :
  network rt rq = Responded r -> resp_json r = Ok user ->
  response_ok r = true -> nullish user = false ->
  profile_obtained (network rt rq) = Some user.
Proof. intros -> Hj Hok Hn. cbn. now rewrite Hj, Hok, Hn. Qed.

(** X3.  The reply is the 200 with [tok] and [user] exactly when the [code]
    is a non-empty string, the token call yields the truthy token [tok], the
    token converts to a string, and the profile call with that bearer yields
    the profile [user] (success status, JSON other than [null]). *)
Theorem success_iff rt req_body tok user :
  fst (run (callback req_body) rt)
  = Ok {| status := 200; body := JObj [("access_token", tok); ("user", user)] |}
  <-> exists code text,
        nullish req_body = false /\ own "code" req_body = JStr code /\ code <> ""
        /\ token_obtained (network rt (token_request (process_env rt) code)) = Some tok
        /\ to_string (number_to_string rt) tok = Ok text
        /\ profile_obtained (network rt (profile_request text)) = Some user.
Proof.
  destruct (run (callback req_body) rt) as [res tr] eqn:H. cbn [fst].
  run_paths H; tidy; tidy_code; split.
  all: try (intros [= ]; fail).
  all: try (intros [= <- <-]; eexists _, _; split; [assumption|];
            split; [symmetry; eassumption|]; split; [apply truthy_string; assumption|];
            split; [eapply token_obtained_some; eassumption|];
            split; [eassumption|]; eapply profile_obtained_some; eassumption).
  all: intros (code & text & Hn & Hc & Hne & Htok & Hts & Hprof).
  all: try congruence.
  all: rewrite Hc in *; try discriminate;
    try (apply truthy_string in Hne; congruence).
  all: repeat match goal with
              | H' : JStr _ = JStr _ |- _ => injection H' as ->
              end.
  all: apply token_obtained_inv in Htok as (r1 & result1 & ? & ? & ? & ? & ->); tidy;
    try congruence.
  all: apply profile_obtained_inv in Hprof as (r2' & ? & ? & ? & ?); tidy; try congruence.
  all: try match goal with
           | Hn : nullish ?v = true, Ht : truthy (own _ ?v) = true |- _ =>
               destruct v; discriminate
           end.
  all: subst; match goal with
              | E : substring_0_10 (JStr _) = Throw _ |- _ => discriminate E
              end.
Qed.


(** X4.  The reply is the 400 ["Authorization code is required"] exactly
    when the request has a body and its [code] is falsy: absent, [null],
    [""], and also [false], [0] or [NaN]. *)
Theorem validation_error_iff rt req_body :
  fst (run (callback req_body) rt)
  = Ok {| status := 400;
          body := JObj [("error", JStr "Authorization code is required")] |}
  <-> nullish req_body = false /\ truthy (own "code" req_body) = false.
Proof.
  destruct (run (callback req_body) rt) as [res tr] eqn:H. cbn [fst].
  run_paths H; tidy; tidy_code; split.
  all: try (intros [= ]; fail).
  all: try (intros _; split; congruence).
  all: intros [Hn Hf]; try congruence.
Qed.

(** X5.  The reply is the 400 ["Failed to get access token"] exactly when
    the [code] is a non-empty string and the token call is answered with a
    success status and a JSON value other than [null] whose [access_token]
    is absent or falsy. *)
Theorem token_error_iff rt req_body :
  fst (run (callback req_body) rt)
  = Ok {| status := 400;
          body := JObj [("error", JStr "Failed to get access token")] |}
  <-> exists code r result,
        nullish req_body = false /\ own "code" req_body = JStr code /\ code <> ""
        /\ network rt (token_request (process_env rt) code) = Responded r
        /\ response_ok r = true /\ resp_json r = Ok result
        /\ nullish result = false /\ truthy (own "access_token" result) = false.
Proof.
  destruct (run (callback req_body) rt) as [res tr] eqn:H. cbn [fst].
  run_paths H; tidy; tidy_code; split.
  all: try (intros [= ]; fail).
  all: try (intros _; eexists _, _, _; split; [assumption|];
            split; [symmetry; eassumption|]; split; [apply truthy_string; assumption|];
            repeat (split; [eassumption|]); assumption).
  all: intros (code & r' & result & Hn & Hc & Hne & Hnet & Hok & Hj & Hnn & Hf).
  all: try congruence.
  all: rewrite Hc in *; try discriminate;
    try (apply truthy_string in Hne; congruence).
  all: repeat match goal with
              | H' : JStr _ = JStr _ |- _ => injection H' as ->
              end.
  all: tidy; try congruence.
  all: subst; match goal with
              | E : substring_0_10 (JStr _) = Throw _ |- _ => discriminate E
              end.
Qed.


Lemma transport_error_inv o e :
  transport_error o = Some e ->
  o = Rejected e \/ exists r, o = Responded r /\ resp_json r = Throw e.
Proof.
  destruct o as [e'|r]; cbn.
  - intros [= ->]. now left.
  - destruct (resp_json r) as [v|e'] eqn:Hj; [discriminate|].
    intros [= ->]. right. now exists r.
Qed.

(** X6.  When an outbound call fails in transport ([fetch] rejects, or the
    body of the response cannot be read as JSON, whatever its status), the
    reply is HTTP 500 with that error's message as [details], and the failed
    call is the last one of the run: nothing is retried and nothing is called
    after it. *)
Theorem transport_failure_ends_run rt req_body res tr rq e :
  run (callback req_body) rt = (res, tr) ->
  In rq (outbound tr) ->
  transport_error (network rt rq) = Some e ->
  res = Ok {| status := 500;
              body := JObj [ ("error", JStr "Internal server error");
                             ("details", JStr (err_message e)) ] |}
  /\ exists before, outbound tr = (before ++ [rq])%list.
Proof.
  intros H Hin Herr.
  apply transport_error_inv in Herr as [Herr | (r' & Herr & Hj)].
  all: run_paths H; tidy; try congruence.
  all: split; [reflexivity|]; cbn [outbound flat_map app].
  all: first [exists []; reflexivity | eexists [_]; reflexivity].
Qed.

(** X7.  When the token call is answered with a success status and the JSON
    body [null], the reply is HTTP 500, not the 400 of a missing token: its
    [details] are the message of the failed read of [access_token]; the
    profile endpoint is not called. *)
Theorem null_token_body_is_internal_error rt req_body res tr rq r result :
  run (callback req_body) rt = (res, tr) ->
  In rq (outbound tr) -> fetch_url rq = token_url ->
  network rt rq = Responded r -> response_ok r = true ->
  resp_json r = Ok result -> nullish result = true ->
  exists details,
    res = Ok {| status := 500;
                body := JObj [ ("error", JStr "Internal server error");
                               ("details", JStr details) ] |}
    /\ get result "access_token" = Throw (TypeError details)
    /\ calls_to profile_url tr = [].
Proof.
  intros H Hin Hurl Hnet Hok Hjson Hnull.
  run_unfold H; repeat run_step H; injection H as <- <-.
  all: tidy_calls; try congruence.
  all: repeat match goal with
              | Hb : negb _ = true |- _ => apply negb_true_iff in Hb
              | Hb : negb _ = false |- _ => apply negb_false_iff in Hb
              end; try congruence.
  all: try match goal with
           | Hg : get ?v _ = Ok _ |- _ => apply get_ok in Hg as [? ?]; congruence
           end.
  all: match goal with
       | Hn : nullish ?v = true |- _ => destruct v; try discriminate Hn
       end.
  all: match goal with
       | Hg : get _ _ = Throw _ |- _ => cbn in Hg; injection Hg as <-
       end.
  all: eexists; split; [reflexivity|]; split; reflexivity.
Qed.

(** X8.  When the profile call is answered with a success status and the
    JSON body [null], the reply is HTTP 500 although both calls succeeded:
    its [details] are the message of the failed read of [username] for the
    log. *)
Theorem null_profile_is_internal_error rt req_body res tr rq r user :
  run (callback req_body) rt = (res, tr) ->
  In rq (outbound tr) -> fetch_url rq = profile_url ->
  network rt rq = Responded r -> response_ok r = true ->
  resp_json r = Ok user -> nullish user = true ->
  exists details,
    res = Ok {| status := 500;
                body := JObj [ ("error", JStr "Internal server error");
                               ("details", JStr details) ] |}
    /\ get user "username" = Throw (TypeError details).
Proof.
  intros H Hin Hurl Hnet Hok Hjson Hnull.
  run_unfold H; repeat run_step H; injection H as <- <-.
  all: tidy_calls; try congruence.
  all: repeat match goal with
              | Hb : negb _ = true |- _ => apply negb_true_iff in Hb
              | Hb : negb _ = false |- _ => apply negb_false_iff in Hb
              end; try congruence.
  all: try match goal with
           | Hn : nullish ?v = true, Hg : get ?v _ = Ok _ |- _ =>
               apply get_ok in Hg as [? ?]; congruence
           end.
  all: match goal with
       | Hn : nullish ?v = true |- _ => destruct v; try discriminate Hn
       end.
  all: match goal with
       | Hg : get JUndefined _ = Throw _ |- _ => cbn in Hg; injection Hg as <-
       | Hg : get JNull _ = Throw _ |- _ => cbn in Hg; injection Hg as <-
       end.
  all: eexists; split; reflexivity.
Qed.

(** X9.  When the token call yields a truthy [access_token] that cannot be
    converted to a string for the bearer header, the reply is HTTP 500 with
    the conversion error's message, and the profile endpoint is not
    called. *)
Theorem unconvertible_token_is_internal_error rt req_body res tr rq r result e :
  run (callback req_body) rt = (res, tr) ->
  In rq (outbound tr) -> fetch_url rq = token_url ->
  network rt rq = Responded r -> response_ok r = true ->
  resp_json r = Ok result ->
  truthy (own "access_token" result) = true ->
  to_string (number_to_string rt) (own "access_token" result) = Throw e ->
  res = Ok {| status := 500;
              body := JObj [ ("error", JStr "Internal server error");
                             ("details", JStr (err_message e)) ] |}
  /\ calls_to profile_url tr = [].
Proof.
  intros H Hin Hurl Hnet Hok Hjson Htruthy Hts.
  run_paths H; tidy; try congruence.
  all: try match goal with
           | Hn : nullish ?v = true, Ht : truthy (own _ ?v) = true |- _ =>
               destruct v; discriminate
           end.
  all: split; reflexivity.
Qed.

(** X10.  When the request has no parsed body ([undefined] or [null]), the
    destructuring throws inside the [try]: the reply is HTTP 500 with the
    message of that error, the error is logged, and no outbound call is
    made. *)
Theorem missing_body_is_internal_error rt req_body :
  nullish req_body = true ->
  exists details,
    run (callback req_body) rt
    = (Ok {| status := 500;
             body := JObj [ ("error", JStr "Internal server error");
                            ("details", JStr details) ] |},
       [EError [L "OAuth callback error:"; LErr (TypeError details)]])
    /\ destructure req_body "code" "req.body" = Throw (TypeError details).
Proof.
  intros Hnull. destruct req_body; try discriminate Hnull.
  all: eexists; split; reflexivity.
Qed.



(** X12.  A 500 reply is always logged: the last event of the run is the
    [console.error] of ["OAuth callback error:"] with the caught error, and
    the [details] of the reply are that error's message.  A reply other
    than 500 never comes with such a log entry. *)
Theorem internal_errors_are_logged rt req_body reply tr :
  run (callback req_body) rt = (Ok reply, tr) ->
  (status reply = 500 ->
   exists e,
     last tr (ELog []) = EError [L "OAuth callback error:"; LErr e]
     /\ body reply = JObj [ ("error", JStr "Internal server error");
                            ("details", JStr (err_message e)) ])
  /\ (status reply <> 500 ->
      forall e, ~ In (EError [L "OAuth callback error:"; LErr e]) tr).
Proof.
  intros H. run_paths H; split; intros Hst; cbn [status] in Hst; try congruence.
  all: try (eexists; split; reflexivity).
  all: intros e' Hin; cbn [In] in Hin;
    repeat match goal with
           | Hd : _ \/ _ |- _ => destruct Hd as [Hd | Hd]
           | Hd : False |- _ => destruct Hd
           | Hd : _ = _ |- _ => discriminate Hd
           end.
Qed.

End HandlerFacts.

(** ** Start-up *)

Module StartupFacts.
Import Js Server Startup.

(** X13.  The listening callback never throws and logs three lines.  The
    first two carry the port given to [app.listen]: the value of [PORT], or
    3001 when it is unset or empty.  The third carries [FRONTEND_URL] as it
    is, ["undefined"] when unset.  The CORS origin is [FRONTEND_URL], or
    ["http://localhost:4200"] when it is unset or empty; so the third line
    shows the CORS origin exactly when [FRONTEND_URL] is set and not empty,
    and neither the port nor the origin is ever falsy. *)
Theorem banner_and_cors_origin rt env tr0 :
  let port_text :=
    match PORT env with
    | Some (String c s) => String c s
    | Some "" | None => number_to_string rt 3001
    end in
  let frontend_text :=
    match FRONTEND_URL env with
    | Some s => s
    | None => "undefined"
    end in
  on_listening env rt tr0
  = (Ok tt,
     (tr0 ++ [ ELog [L ("🚀 KvantoBot Web API running on port " ++ port_text)];
               ELog [L ("🔗 API available at http://localhost:" ++ port_text ++ "/api")];
               ELog [L ("🌐 Frontend URL: " ++ frontend_text)] ])%list)
  /\ port env
     = match PORT env with
       | Some (String c s) => JStr (String c s)
       | Some "" | None => JNum 3001
       end
  /\ cors_origin env
     = match FRONTEND_URL env with
       | Some (String c s) => JStr (String c s)
       | Some "" | None => JStr "http://localhost:4200"
       end
  /\ truthy (port env) = true
  /\ truthy (cors_origin env) = true
  /\ (cors_origin env = JStr frontend_text
      <-> exists s, FRONTEND_URL env = Some s /\ s <> "").
Proof.
  intros port_text frontend_text. subst port_text frontend_text.
  unfold on_listening, ToString, console_log, bind, ret, lift, ask, emit,
    port, cors_origin, js_or.
  destruct (PORT env) as [[|c s]|]; destruct (FRONTEND_URL env) as [[|c' s']|];
    cbn -[append]; rewrite <- !app_assoc; cbn [app].
  all: repeat split; try reflexivity.
  all: try (intros [= ]; fail).
  all: try (intros (u & [= <-] & Hne); congruence).
  all: try (intros (u & [= ] & _); fail).
  all: intros _; eexists; split; [reflexivity | discriminate].
Qed.

End StartupFacts.

(** ** The further theorems at concrete requests *)

Module MoreRuns.
Import Js Server Scenario MoreScenarios Observe HandlerFacts.

Lemma transport_failure_witness :
  let out := run (callback (with_code (JStr "valid123"))) profile_offline in
  let rq := profile_request "tok-abc" in
  let e := TypeError "fetch failed" in
  (In rq (outbound (snd out))
   /\ transport_error (network profile_offline rq) = Some e)
  /\ fst out = Ok {| status := 500;
                     body := JObj [ ("error", JStr "Internal server error");
                                    ("details", JStr (err_message e)) ] |}
  /\ exists before, outbound (snd out) = (before ++ [rq])%list.
Proof.
  intros out rq e. split.
  - split; [cbv; auto | reflexivity].
  - apply (transport_failure_ends_run profile_offline (with_code (JStr "valid123"))
             (fst out) (snd out) rq e);
      try reflexivity.
    cbv. auto.
Defined.

Lemma null_token_body_witness :
  let out := run (callback (with_code (JStr "valid123"))) null_token_body in
  let rq := token_request env "valid123" in
  let r := {| resp_status := 200; resp_json := Ok JNull |} in
  (In rq (outbound (snd out)) /\ fetch_url rq = token_url
   /\ network null_token_body rq = Responded r /\ response_ok r = true
   /\ resp_json r = Ok JNull /\ nullish JNull = true)
  /\ exists details,
       fst out = Ok {| status := 500;
                       body := JObj [ ("error", JStr "Internal server error");
                                      ("details", JStr details) ] |}
       /\ get JNull "access_token" = Throw (TypeError details)
       /\ calls_to profile_url (snd out) = [].
Proof.
  intros out rq r. split.
  - repeat split; try reflexivity. cbv. auto.
  - apply (null_token_body_is_internal_error null_token_body
             (with_code (JStr "valid123")) (fst out) (snd out) rq r JNull);
      try reflexivity.
    cbv. auto.
Defined.

Lemma null_profile_witness :
  let out := run (callback (with_code (JStr "valid123"))) null_profile in
  let rq := profile_request "tok-abc" in
  let r := {| resp_status := 200; resp_json := Ok JNull |} in
  (In rq (outbound (snd out)) /\ fetch_url rq = profile_url
   /\ network null_profile rq = Responded r /\ response_ok r = true
   /\ resp_json r = Ok JNull /\ nullish JNull = true)
  /\ exists details,
       fst out = Ok {| status := 500;
                       body := JObj [ ("error", JStr "Internal server error");
                                      ("details", JStr details) ] |}
       /\ get JNull "username" = Throw (TypeError details).
Proof.
  intros out rq r. split.
  - repeat split; try reflexivity. cbv. auto.
  - apply (null_profile_is_internal_error null_profile
             (with_code (JStr "valid123")) (fst out) (snd out) rq r JNull);
      try reflexivity.
    cbv. auto.
Defined.

Lemma unconvertible_token_witness :
  let out := run (callback (with_code (JStr "valid123"))) odd_token in
  let rq := token_request env "valid123" in
  let result := JObj [("access_token", JObj [("toString", JBool true)])] in
  let r := {| resp_status := 200; resp_json := Ok result |} in
  let e := TypeError "Cannot convert object to primitive value" in
  (In rq (outbound (snd out)) /\ fetch_url rq = token_url
   /\ network odd_token rq = Responded r /\ response_ok r = true
   /\ resp_json r = Ok result
   /\ truthy (own "access_token" result) = true
   /\ to_string (number_to_string odd_token) (own "access_token" result) = Throw e)
  /\ fst out = Ok {| status := 500;
                     body := JObj [ ("error", JStr "Internal server error");
                                    ("details", JStr (err_message e)) ] |}
  /\ calls_to profile_url (snd out) = [].
Proof.
  intros out rq result r e. split.
  - repeat split; try reflexivity. cbv. auto.
  - apply (unconvertible_token_is_internal_error odd_token
             (with_code (JStr "valid123")) (fst out) (snd out) rq r result e);
      try reflexivity.
    cbv. auto.
Defined.

Lemma missing_body_witness :
  nullish JUndefined = true
  /\ exists details,
       run (callback JUndefined) alice
       = (Ok {| status := 500;
                body := JObj [ ("error", JStr "Internal server error");
                               ("details", JStr details) ] |},
          [EError [L "OAuth callback error:"; LErr (TypeError details)]])
       /\ destructure JUndefined "code" "req.body" = Throw (TypeError details).
Proof.
  split; [reflexivity|].
  apply (missing_body_is_internal_error alice JUndefined). reflexivity.
Defined.


Lemma internal_errors_witness :
  let out := run (callback (with_code (JStr "expired"))) expired in
  let reply := {| status := 500;
                  body := JObj [ ("error", JStr "Internal server error");
                                 ("details", JStr "Token exchange failed: invalid_grant") ] |} in
  run (callback (with_code (JStr "expired"))) expired = (Ok reply, snd out)
  /\ (status reply = 500 ->
      exists e,
        last (snd out) (ELog []) = EError [L "OAuth callback error:"; LErr e]
        /\ body reply = JObj [ ("error", JStr "Internal server error");
                               ("details", JStr (err_message e)) ])
  /\ (status reply <> 500 ->
      forall e, ~ In (EError [L "OAuth callback error:"; LErr e]) (snd out)).
Proof.
  intros out reply. split; [reflexivity|].
  apply (internal_errors_are_logged expired (with_code (JStr "expired")) reply (snd out)).
  reflexivity.
Defined.

(** Falsy codes other than the three of the validation's wording. *)
Example false_code_replies_400 :
  fst (run (callback (with_code (JBool false))) alice)
  = Ok {| status := 400;
          body := JObj [("error", JStr "Authorization code is required")] |}.
Proof. reflexivity. Qed.

Example zero_code_replies_400 :
  fst (run (callback (with_code (JNum 0))) alice)
  = Ok {| status := 400;
          body := JObj [("error", JStr "Authorization code is required")] |}.
Proof. reflexivity. Qed.

(** The provider cannot be reached: one call, reply 500. *)
Example offline_replies_500 :
  fst (run (callback (with_code (JStr "valid123"))) offline)
  = Ok {| status := 500;
          body := JObj [ ("error", JStr "Internal server error");
                         ("details", JStr "fetch failed") ] |}
  /\ outbound (snd (run (callback (with_code (JStr "valid123"))) offline))
     = [token_request env "valid123"].
Proof. split; reflexivity. Qed.

(** The banner with nothing set, on an engine that prints 3001 as it is. *)
Example banner_with_defaults :
  snd (Startup.on_listening
         {| Startup.PORT := None; Startup.WEBSITE_HOSTNAME := None;
            Startup.FRONTEND_URL := None |}
         {| number_to_string := fun _ => "3001"; process_env := env;
            network := provider unreachable unreachable; clock := 0 |} [])
  = [ ELog [L "🚀 KvantoBot Web API running on port 3001"];
      ELog [L "🔗 API available at http://localhost:3001/api"];
      ELog [L "🌐 Frontend URL: undefined"] ].
Proof. reflexivity. Qed.

End MoreRuns.
